(** * BresserWeatherSensorTTN: wake-cycle persistence and uplink scheduling

    A shallow embedding of [BresserWeatherSensorTTN.ino]: the session store
    kept in the ESP32's RTC RAM, the wake-cycle controller ([setup], [loop],
    [NetJoin], [NetTxComplete]) and the uplink scheduler and payload encoder
    of [cSensor].  Global variables of the sketch become fields of explicit
    state records that every operation receives and returns; a call that
    reaches a point at which C++ defines no behaviour ends in [Undefined]. *)

From Stdlib Require Import ZArith List Bool Lia.
From Stdlib Require Import Strings.Ascii Strings.Byte.
Import ListNotations.
Open Scope Z_scope.

(** ** Machine integers *)

(** [uint32_t] arithmetic wraps modulo 2^32. *)
Definition u32 (x : Z) : Z := x mod 2 ^ 32.

(** [ostime_t] is a signed 32-bit tick count; sums wrap in two's complement. *)
Definition s32 (x : Z) : Z := (x + 2 ^ 31) mod 2 ^ 32 - 2 ^ 31.

(** A C character constant as an [int]. *)
Definition chr (c : ascii) : Z := Z.of_nat (nat_of_ascii c).

(** The C relational operator [<] yields the [int] 0 or 1. *)
Definition c_lt (a b : Z) : Z := if a <? b then 1 else 0.

(** [memcpy(dst, src, n)] on byte arrays: the first [n] bytes of [dst] are
    replaced by those of [src], the rest of [dst] is kept. *)
Definition memcpy (dst src : list byte) (n : nat) : list byte :=
  firstn n src ++ skipn n dst.

(** ** RTC memory handling *)

(** [#define MAGIC1 (('m' << 24) | ('g' < 16) | ('c' << 8) | '1')]: the second
    operand is written with [<], a comparison, and is kept as the source has it. *)
Definition MAGIC1 : Z :=
  Z.lor (Z.lor (Z.lor (Z.shiftl (chr "m"%char) 24) (c_lt (chr "g"%char) 16))
               (Z.shiftl (chr "c"%char) 8))
        (chr "1"%char).

Definition MAGIC2 : Z :=
  Z.lor (Z.lor (Z.lor (Z.shiftl (chr "m"%char) 24) (c_lt (chr "g"%char) 16))
               (Z.shiftl (chr "c"%char) 8))
        (chr "2"%char).

Definition EXTRA_INFO_MEM_SIZE : Z := 64.

(** [Arduino_LoRaWAN::SessionState]: the fields the sketch names, and the
    remainder of the structure as raw bytes. *)
Record SessionState : Type := mkSessionState {
  ss_Tag : Z;
  ss_Size : Z;
  ss_Region : Z;
  ss_LinkDR : Z;
  ss_FCntUp : Z;
  ss_FCntDown : Z;
  ss_gpsTime : Z;
  ss_globalAvail : Z;
  ss_Rx2Frequency : Z;
  ss_PingFrequency : Z;
  ss_Country : Z;
  ss_LinkIntegrity : Z;
  ss_more : list byte
}.

(** [Arduino_LoRaWAN::SessionInfo]; the two keys are [uint8_t[16]] arrays. *)
Record SessionInfo : Type := mkSessionInfo {
  si_Tag : Z;
  si_Size : Z;
  si_Rsv2 : Z;
  si_Rsv3 : Z;
  si_NetID : Z;
  si_DevAddr : Z;
  si_NwkSKey : list byte;
  si_AppSKey : list byte
}.

(** [Arduino_LoRaWAN::AbpProvisioningInfo], as listed in the comment of
    [GetAbpProvisioningInfo]. *)
Record AbpProvisioningInfo : Type := mkAbpProvisioningInfo {
  abp_NwkSKey : list byte;
  abp_AppSKey : list byte;
  abp_DevAddr : Z;
  abp_NetID : Z;
  abp_FCntUp : Z;
  abp_FCntDown : Z
}.

(** The [RTC_DATA_ATTR] variables: their value is retained over a sleep reset. *)
Record RtcMemory : Type := mkRtcMemory {
  magicFlag1 : Z;
  rtcSavedSessionState : SessionState;
  magicFlag2 : Z;
  rtcSavedSessionInfo : SessionInfo;
  rtcSavedNExtraInfo : Z;
  rtcSavedExtraInfo : list byte;
  runtimeExpired : bool
}.

Definition set_magicFlag1 (v : Z) (m : RtcMemory) : RtcMemory :=
  mkRtcMemory v (rtcSavedSessionState m) (magicFlag2 m) (rtcSavedSessionInfo m)
              (rtcSavedNExtraInfo m) (rtcSavedExtraInfo m) (runtimeExpired m).

Definition set_magicFlag2 (v : Z) (m : RtcMemory) : RtcMemory :=
  mkRtcMemory (magicFlag1 m) (rtcSavedSessionState m) v (rtcSavedSessionInfo m)
              (rtcSavedNExtraInfo m) (rtcSavedExtraInfo m) (runtimeExpired m).

Definition set_runtimeExpired (b : bool) (m : RtcMemory) : RtcMemory :=
  mkRtcMemory (magicFlag1 m) (rtcSavedSessionState m) (magicFlag2 m)
              (rtcSavedSessionInfo m) (rtcSavedNExtraInfo m)
              (rtcSavedExtraInfo m) b.

(** [cMyLoRaWAN::NetSaveSessionInfo] (lines 620-636).  The pair
    ([pExtraInfo], [nExtraInfo]) is one byte list, [nExtraInfo] being its
    length.  The function returns [void]: a blob over capacity is dropped
    silently. *)
Definition NetSaveSessionInfo (Info : SessionInfo) (pExtraInfo : list byte)
    (m : RtcMemory) : RtcMemory :=
  let nExtraInfo := Z.of_nat (length pExtraInfo) in
  if nExtraInfo >? EXTRA_INFO_MEM_SIZE then m
  else
    mkRtcMemory (magicFlag1 m) (rtcSavedSessionState m)
                MAGIC2
                Info
                nExtraInfo
                (memcpy (rtcSavedExtraInfo m) pExtraInfo (length pExtraInfo))
                (runtimeExpired m).

(** [cMyLoRaWAN::NetSaveSessionState] (lines 692-700). *)
Definition NetSaveSessionState (State : SessionState) (m : RtcMemory)
    : RtcMemory :=
  mkRtcMemory MAGIC1 State (magicFlag2 m) (rtcSavedSessionInfo m)
              (rtcSavedNExtraInfo m) (rtcSavedExtraInfo m) (runtimeExpired m).

(** [cMyLoRaWAN::NetGetSessionState] (lines 704-717): [State] is the caller's
    object, written only when the state marker matches. *)
Definition NetGetSessionState (m : RtcMemory) (State : SessionState)
    : bool * SessionState :=
  if magicFlag1 m =? MAGIC1 then (true, rtcSavedSessionState m)
  else (false, State).

(** [cMyLoRaWAN::GetAbpProvisioningInfo] (lines 721-761).  [state] is the
    local [SessionState state;], which the source leaves uninitialised: its
    content on entry is an argument.  [pAbpInfo] is the caller's object.
    Each [memcpy] copies a whole 16-byte key array.  It is the only function
    of the build that reads [rtcSavedSessionInfo]: [GetSavedSessionInfo]
    (lines 652-686) is excluded by [#if false]. *)
Definition GetAbpProvisioningInfo (m : RtcMemory) (state : SessionState)
    (pAbpInfo : AbpProvisioningInfo) : bool * AbpProvisioningInfo :=
  if negb (magicFlag1 m =? MAGIC1) || negb (magicFlag2 m =? MAGIC2)
  then (false, pAbpInfo)
  else
    let state' := snd (NetGetSessionState m state) in
    (true,
     mkAbpProvisioningInfo
       (si_NwkSKey (rtcSavedSessionInfo m))
       (si_AppSKey (rtcSavedSessionInfo m))
       (si_DevAddr (rtcSavedSessionInfo m))
       (si_NetID (rtcSavedSessionInfo m))
       (ss_FCntUp state')
       (ss_FCntDown state')).

(** ** User configuration *)

(** The preprocessor switches of the sketch that select code modelled here. *)
Record BuildConfig : Type := mkBuildConfig {
  SLEEP_EN : bool;
  FORCE_SLEEP : bool;
  SENSORID_EN : bool;
  ADC_EN : bool;
  ONEWIRE_EN : bool;
  MITHERMOMETER_EN : bool;
  PIN_ADC3_IN : bool;
  ENCODE_AS_FLOAT : bool
}.

(** The switches as the sketch sets them; [ENCODE_AS_FLOAT] comes from
    [WeatherSensorCfg.h] and is left to the caller. *)
Definition sketch_config (encode_as_float : bool) : BuildConfig :=
  mkBuildConfig true true false true true true true encode_as_float.

Definition SLEEP_INTERVAL : Z := 360.
Definition SLEEP_TIMEOUT_INITIAL : Z := 1800.
Definition SLEEP_TIMEOUT_JOINED : Z := 600.

(** Uplink message payload size (with some reserve). *)
Definition PAYLOAD_SIZE : nat := 36.

(** ** What the sketch takes from its libraries

    Constants of the LMIC headers, the C [float] type with the operations
    [doUplink] applies to it, the [DallasTemperature] constant and the byte
    renderings of [LoraEncoder] are not part of the sketch: they are the
    fields of a class, and every definition below is generic in it.  Each
    renderer yields as many bytes as its [write...] method stores. *)
Class Platform : Type := mkPlatform {
  OP_POLL : Z;
  OP_TXDATA : Z;
  OP_TXRXPEND : Z;
  OSTICKS_PER_SEC : Z;
  cfloat : Type;
  float_of_int : Z -> cfloat;
  float_ne : cfloat -> cfloat -> bool;
  div_100_0 : Z -> cfloat;
  add_0_5_to_uint8 : cfloat -> Z;
  DEVICE_DISCONNECTED_C : cfloat;
  bytesUint8 : Z -> byte;
  bytesUint16 : Z -> byte * byte;
  bytesUint32 : Z -> byte * byte * byte * byte;
  bytesTemperature : cfloat -> byte * byte;
  bytesRawFloat : cfloat -> byte * byte * byte * byte;
  bytesBitmap : bool -> bool -> bool -> bool -> bool -> bool -> bool -> bool -> byte
}.

(** Observable actions, in program order: stores to [m_fBusy], calls of
    [myLoRaWAN.SendBuffer] with the buffer handed over and the result it
    returned, [myLoRaWAN.Shutdown()] and [ESP.deepSleep(us)]. *)
Inductive Effect : Type :=
| FxBusy (b : bool)
| FxSendBuffer (frame : list byte) (accepted : bool)
| FxShutdown
| FxDeepSleep (us : Z).

(** The private members of [cSensor]. *)
Record cSensor : Type := mkSensor {
  m_fUplinkRequest : bool;
  m_fBusy : bool;
  m_uplinkPeriodMs : Z;
  m_tReference : Z
}.

(** The globals of the sketch.  [asleep] is set by [ESP.deepSleep], which does
    not return: no code of the cycle runs after it.  [effects] is the log of
    actions, oldest first. *)
Record Device : Type := mkDevice {
  rtc : RtcMemory;
  mySensor : cSensor;
  loraData : list byte;
  sleepTimeout : Z;
  asleep : bool;
  effects : list Effect
}.

Definition set_rtc (m : RtcMemory) (d : Device) : Device :=
  mkDevice m (mySensor d) (loraData d) (sleepTimeout d) (asleep d) (effects d).

Definition set_mySensor (s : cSensor) (d : Device) : Device :=
  mkDevice (rtc d) s (loraData d) (sleepTimeout d) (asleep d) (effects d).

Definition set_loraData (b : list byte) (d : Device) : Device :=
  mkDevice (rtc d) (mySensor d) b (sleepTimeout d) (asleep d) (effects d).

Definition set_sleepTimeout (t : Z) (d : Device) : Device :=
  mkDevice (rtc d) (mySensor d) (loraData d) t (asleep d) (effects d).

Definition log (fx : Effect) (d : Device) : Device :=
  mkDevice (rtc d) (mySensor d) (loraData d) (sleepTimeout d) (asleep d)
           (effects d ++ [fx]).

(** The assignment [m_fBusy = b], logged. *)
Definition set_m_fBusy (b : bool) (d : Device) : Device :=
  let s := mySensor d in
  log (FxBusy b)
      (set_mySensor (mkSensor (m_fUplinkRequest s) b (m_uplinkPeriodMs s)
                              (m_tReference s)) d).

Definition Shutdown (d : Device) : Device := log FxShutdown d.

Definition deepSleep (us : Z) (d : Device) : Device :=
  let d' := log (FxDeepSleep us) d in
  mkDevice (rtc d') (mySensor d') (loraData d') (sleepTimeout d') true
           (effects d').

(** How a call ends.  [Returns d]: it returns, the globals being [d].
    [Undefined d]: the stores up to [d] are done and control has reached a
    point from which C++ defines no behaviour; the source says nothing of
    what the program does next. *)
Inductive Outcome : Type :=
| Returns (d : Device)
| Undefined (d : Device).

(** The globals as the statements of a call have stored them, however it
    ends. *)
Definition stores (o : Outcome) : Device :=
  match o with
  | Returns d => d
  | Undefined d => d
  end.

(** ** LoraEncoder over the payload buffer *)

(** [buf[i] = b]; the model stores nothing outside the array
    ([encode_fits] shows that no write of [doUplink] falls there). *)
Fixpoint poke (buf : list byte) (i : nat) (b : byte) : list byte :=
  match buf, i with
  | [], _ => []
  | _ :: t, O => b :: t
  | h :: t, S i' => h :: poke t i' b
  end.

(** [LoraEncoder]: the buffer it was constructed on and the write cursor
    [_buffer], as an offset into it. *)
Record LoraEncoder : Type := mkEncoder {
  enc_data : list byte;
  enc_pos : nat
}.

Definition LoraEncoder_new (buffer : list byte) : LoraEncoder :=
  mkEncoder buffer 0.

(** Store the bytes at the cursor, one after the other, and advance it. *)
Fixpoint enc_put (bs : list byte) (e : LoraEncoder) : LoraEncoder :=
  match bs with
  | [] => e
  | b :: bs' => enc_put bs' (mkEncoder (poke (enc_data e) (enc_pos e) b)
                                       (S (enc_pos e)))
  end.

Section Sketch.

Context {P : Platform}.

Definition writeUint8 (i : Z) (e : LoraEncoder) : LoraEncoder :=
  enc_put [bytesUint8 i] e.

Definition writeUint16 (i : Z) (e : LoraEncoder) : LoraEncoder :=
  let '(b0, b1) := bytesUint16 i in enc_put [b0; b1] e.

Definition writeUint32 (i : Z) (e : LoraEncoder) : LoraEncoder :=
  let '(b0, b1, b2, b3) := bytesUint32 i in enc_put [b0; b1; b2; b3] e.

Definition writeTemperature (t : cfloat) (e : LoraEncoder) : LoraEncoder :=
  let '(b0, b1) := bytesTemperature t in enc_put [b0; b1] e.

Definition writeRawFloat (v : cfloat) (e : LoraEncoder) : LoraEncoder :=
  let '(b0, b1, b2, b3) := bytesRawFloat v in enc_put [b0; b1; b2; b3] e.

Definition writeBitmap (a b c d e' f g h : bool) (e : LoraEncoder)
    : LoraEncoder :=
  enc_put [bytesBitmap a b c d e' f g h] e.

(** Code under [#ifdef]: present in the build or not. *)
Definition ifdef (flag : bool) (f : LoraEncoder -> LoraEncoder)
    (e : LoraEncoder) : LoraEncoder :=
  if flag then f e else e.

(** ** Sensor readings *)

(** The members of the global [weatherSensor] that [doUplink] reads; they are
    received once, in [cSensor::setup]. *)
Record WeatherSensor : Type := mkWeatherSensor {
  sensor_id : Z;
  temp_c : cfloat;
  humidity : Z;
  wind_gust_meter_sec : cfloat;
  wind_avg_meter_sec : cfloat;
  wind_direction_deg : cfloat;
  wind_gust_meter_sec_fp1 : Z;
  wind_avg_meter_sec_fp1 : Z;
  wind_direction_deg_fp1 : Z;
  rain_mm : cfloat;
  data_ok : bool;
  battery_ok : bool
}.

(** [miThermometer.data[0]] after the BLE scan. *)
Record MiThermometerData : Type := mkMiThermometerData {
  mi_valid : bool;
  mi_temperature : Z;
  mi_humidity : Z
}.

(** What [doUplink] obtains from the sensors: the weather sensor data, the
    value it receives from [getTemperature()] (whose body ends without a
    [return]), from [getVoltage()] and from [getVoltage(adc3, ...)], and the
    BLE thermometer data. *)
Record Readings : Type := mkReadings {
  weatherSensor : WeatherSensor;
  getTemperature : cfloat;
  getVoltage : Z;
  getVoltage_adc3 : Z;
  miThermometer_data0 : MiThermometerData
}.

(** The payload part of [cSensor::doUplink] (lines 917-1010): substitutes
    the defaults for missing readings and serialises into [buffer], which is
    [loraData].  Returns the buffer as the encoder leaves it. *)
Definition encodePayload (cfg : BuildConfig) (expired : bool) (r : Readings)
    (buffer : list byte) : list byte :=
  let ws := weatherSensor r in
  let mi := miThermometer_data0 r in
  let water_temp_c :=
    if float_ne (getTemperature r) DEVICE_DISCONNECTED_C
    then getTemperature r else float_of_int (-30) in
  let supply_voltage := getVoltage r in
  let battery_voltage := getVoltage_adc3 r in
  let mithermometer_valid := MITHERMOMETER_EN cfg && mi_valid mi in
  let indoor_temp_c :=
    if mi_valid mi then div_100_0 (mi_temperature mi) else float_of_int (-30) in
  let indoor_humidity :=
    if mi_valid mi then div_100_0 (mi_humidity mi) else float_of_int 0 in
  let encoder := LoraEncoder_new buffer in
  let encoder := ifdef (SENSORID_EN cfg) (writeUint32 (sensor_id ws)) encoder in
  let encoder :=
    writeBitmap false false false false
                expired mithermometer_valid (data_ok ws) (battery_ok ws)
                encoder in
  let encoder := writeTemperature (temp_c ws) encoder in
  let encoder := writeUint8 (humidity ws) encoder in
  let encoder :=
    if ENCODE_AS_FLOAT cfg then
      writeRawFloat (wind_direction_deg ws)
        (writeRawFloat (wind_avg_meter_sec ws)
           (writeRawFloat (wind_gust_meter_sec ws) encoder))
    else
      writeUint16 (wind_direction_deg_fp1 ws)
        (writeUint16 (wind_avg_meter_sec_fp1 ws)
           (writeUint16 (wind_gust_meter_sec_fp1 ws) encoder)) in
  let encoder := writeRawFloat (rain_mm ws) encoder in
  let encoder := ifdef (ADC_EN cfg) (writeUint16 supply_voltage) encoder in
  let encoder := ifdef (PIN_ADC3_IN cfg) (writeUint16 battery_voltage) encoder in
  let encoder := ifdef (ONEWIRE_EN cfg) (writeTemperature water_temp_c) encoder in
  let encoder :=
    ifdef (MITHERMOMETER_EN cfg)
          (fun e => writeUint8 (add_0_5_to_uint8 indoor_humidity)
                      (writeTemperature indoor_temp_c e))
          encoder in
  enc_data encoder.

(** ** Sensor methods *)

(** What one call of [doUplink] reads from outside the sketch:
    [LMIC.opmode], the sensor readings, and what [myLoRaWAN.SendBuffer]
    returns for the buffer. *)
Record UplinkEnv : Type := mkUplinkEnv {
  LMIC_opmode : Z;
  readings : Readings;
  SendBuffer_result : bool
}.

(** The condition [LMIC.opmode & (OP_POLL | OP_TXDATA | OP_TXRXPEND)]. *)
Definition LMIC_busy (opmode : Z) : bool :=
  negb (Z.land opmode (Z.lor (Z.lor OP_POLL OP_TXDATA) OP_TXRXPEND) =? 0).

(** [cSensor::doUplink] (lines 889-1029). *)
Definition doUplink (cfg : BuildConfig) (env : UplinkEnv) (d : Device)
    : Device :=
  if m_fBusy (mySensor d) then d
  else if LMIC_busy (LMIC_opmode env) then d
  else
    let d := set_loraData
               (encodePayload cfg (runtimeExpired (rtc d)) (readings env)
                              (loraData d)) d in
    let d := set_m_fBusy true d in
    let d := log (FxSendBuffer (loraData d) (SendBuffer_result env)) d in
    if negb (SendBuffer_result env) then set_m_fBusy false d else d.

(** The completion function handed to [SendBuffer] (lines 1018-1021). *)
Definition SendBuffer_done (fSuccess : bool) (d : Device) : Device :=
  set_m_fBusy false d.

(** [cSensor::uplinkRequest] (lines 272-274) is declared [bool]; its body is
    the store [m_fUplinkRequest = true] and no [return] statement.  Control
    reaches the end of a function that returns a value, for which C++ defines
    no behaviour: the call is [Undefined], at the state with the store done. *)
Definition uplinkRequest (d : Device) : Outcome :=
  let s := mySensor d in
  Undefined
    (set_mySensor (mkSensor true (m_fBusy s) (m_uplinkPeriodMs s)
                            (m_tReference s)) d).

(** [cSensor::setup]; [millis] is the value of [millis()]. *)
Definition cSensor_setup (uplinkPeriodMs : Z) (millis : Z) (d : Device)
    : Device :=
  let s := mySensor d in
  set_mySensor (mkSensor (m_fUplinkRequest s) (m_fBusy s) uplinkPeriodMs millis)
               d.

(** The first half of [cSensor::loop] (lines 805-815): decide whether an
    uplink is due.  All operands are [uint32_t]; a zero period makes the
    division trap. *)
Definition loop_schedule (tNow : Z) (s : cSensor) : option cSensor :=
  let deltaT := u32 (tNow - m_tReference s) in
  if deltaT >=? m_uplinkPeriodMs s then
    if m_uplinkPeriodMs s =? 0 then None
    else
      let advance := deltaT / m_uplinkPeriodMs s in
      Some (mkSensor true (m_fBusy s) (m_uplinkPeriodMs s)
                     (u32 (m_tReference s + u32 (advance * m_uplinkPeriodMs s))))
  else Some s.

(** [cSensor::loop] (lines 803-822); [tNow] is the value of [millis()]. *)
Definition cSensor_loop (cfg : BuildConfig) (tNow : Z) (env : UplinkEnv)
    (d : Device) : option Device :=
  match loop_schedule tNow (mySensor d) with
  | None => None
  | Some s =>
      if m_fUplinkRequest s then
        Some (doUplink cfg env
                (set_mySensor (mkSensor false (m_fBusy s) (m_uplinkPeriodMs s)
                                        (m_tReference s)) d))
      else Some (set_mySensor s d)
  end.

(** ** LoRaWAN methods and the controller *)

(** The LMIC macro [sec2osticks]. *)
Definition sec2osticks (sec : Z) : Z := s32 (sec * OSTICKS_PER_SEC).

(** [cMyLoRaWAN::NetJoin] (lines 556-561); [now] is the value of
    [os_getTime()]. *)
Definition NetJoin (now : Z) (d : Device) : Device :=
  set_sleepTimeout (s32 (now + sec2osticks SLEEP_TIMEOUT_JOINED)) d.

(** [cMyLoRaWAN::NetTxComplete] (lines 565-574). *)
Definition NetTxComplete (cfg : BuildConfig) (d : Device) : Device :=
  if SLEEP_EN cfg then deepSleep (SLEEP_INTERVAL * 1000000) (Shutdown d)
  else d.

(** The [FORCE_SLEEP] block that ends [loop()] (lines 475-485); [now] is the
    value of [os_getTime()]. *)
Definition loop_force_sleep (cfg : BuildConfig) (now : Z) (d : Device)
    : Device :=
  if FORCE_SLEEP cfg && (now >? sleepTimeout d) then
    let d := set_rtc (set_runtimeExpired true (rtc d)) d in
    let d := Shutdown d in
    let d := set_rtc (set_magicFlag1 0 (rtc d)) d in
    let d := set_rtc (set_magicFlag2 0 (rtc d)) d in
    deepSleep (SLEEP_INTERVAL * 1000000) d
  else d.

(** The device as a sleep reset leaves it: the RTC memory is retained, every
    other global has its static initial value. *)
Definition boot (m : RtcMemory) : Device :=
  mkDevice m (mkSensor false false 0 0) (repeat x00 PAYLOAD_SIZE) 0 false [].

(** [setup()] (lines 435-461).  [millis] is read by [mySensor.setup()],
    called with its default period of six minutes.  [myLoRaWAN.setup()] and
    [myEventLog.setup()] belong to the libraries and store to no variable of
    the sketch.  The last statement is the call of [uplinkRequest], so that
    [setup()] ends as that call does: [Undefined], with every store of
    [setup()] done. *)
Definition setup (millis : Z) (d : Device) : Outcome :=
  let d := set_sleepTimeout (sec2osticks SLEEP_TIMEOUT_INITIAL) d in
  let d := cSensor_setup (6 * 60 * 1000) millis d in
  uplinkRequest d.

(** What [myLoRaWAN.loop()] may call back into the sketch. *)
Inductive Callback : Type :=
| CbNetJoin (now : Z)
| CbNetTxComplete
| CbNetSaveSessionInfo (Info : SessionInfo) (pExtraInfo : list byte)
| CbNetSaveSessionState (State : SessionState)
| CbSendBufferDone (fSuccess : bool).

(** The code of the sketch that runs while the device is awake. *)
Inductive Event : Type :=
| EvCallback (cb : Callback)
| EvSensorLoop (tNow : Z) (env : UplinkEnv)
| EvForceSleep (now : Z).

Definition callback (cfg : BuildConfig) (cb : Callback) (d : Device) : Device :=
  match cb with
  | CbNetJoin now => NetJoin now d
  | CbNetTxComplete => NetTxComplete cfg d
  | CbNetSaveSessionInfo Info pExtraInfo =>
      set_rtc (NetSaveSessionInfo Info pExtraInfo (rtc d)) d
  | CbNetSaveSessionState State => set_rtc (NetSaveSessionState State (rtc d)) d
  | CbSendBufferDone fSuccess => SendBuffer_done fSuccess d
  end.

Definition handle (cfg : BuildConfig) (ev : Event) (d : Device)
    : option Device :=
  match ev with
  | EvCallback cb => Some (callback cfg cb d)
  | EvSensorLoop tNow env => cSensor_loop cfg tNow env d
  | EvForceSleep now => Some (loop_force_sleep cfg now d)
  end.

(** One event; nothing runs once the device has entered deep sleep. *)
Definition step (cfg : BuildConfig) (ev : Event) (d : Device) : option Device :=
  if asleep d then Some d else handle cfg ev d.

Fixpoint run (cfg : BuildConfig) (evs : list Event) (d : Device)
    : option Device :=
  match evs with
  | [] => Some d
  | ev :: evs' =>
      match step cfg ev d with
      | None => None
      | Some d' => run cfg evs' d'
      end
  end.

(** [loop()] (lines 469-486): [myLoRaWAN.loop()] delivers the callbacks
    [cbs], then [mySensor.loop()] and the [FORCE_SLEEP] check run. *)
Definition loop (cfg : BuildConfig) (cbs : list Callback) (tNow : Z)
    (env : UplinkEnv) (now : Z) (d : Device) : option Device :=
  run cfg (map EvCallback cbs ++ [EvSensorLoop tNow env; EvForceSleep now]) d.

(** ** Vocabulary of the statements *)

Definition pair_bytes (p : byte * byte) : list byte :=
  let '(b0, b1) := p in [b0; b1].

Definition quad_bytes (q : byte * byte * byte * byte) : list byte :=
  let '(b0, b1, b2, b3) := q in [b0; b1; b2; b3].

(** The bytes [encodePayload] stores, in the order of its [write...] calls. *)
Definition payload_bytes (cfg : BuildConfig) (expired : bool) (r : Readings)
    : list byte :=
  let ws := weatherSensor r in
  let mi := miThermometer_data0 r in
  let water_temp_c :=
    if float_ne (getTemperature r) DEVICE_DISCONNECTED_C
    then getTemperature r else float_of_int (-30) in
  let indoor_temp_c :=
    if mi_valid mi then div_100_0 (mi_temperature mi) else float_of_int (-30) in
  let indoor_humidity :=
    if mi_valid mi then div_100_0 (mi_humidity mi) else float_of_int 0 in
  (if SENSORID_EN cfg then quad_bytes (bytesUint32 (sensor_id ws)) else [])
  ++ [bytesBitmap false false false false expired
                  (MITHERMOMETER_EN cfg && mi_valid mi)
                  (data_ok ws) (battery_ok ws)]
  ++ pair_bytes (bytesTemperature (temp_c ws))
  ++ [bytesUint8 (humidity ws)]
  ++ (if ENCODE_AS_FLOAT cfg then
        quad_bytes (bytesRawFloat (wind_gust_meter_sec ws))
        ++ quad_bytes (bytesRawFloat (wind_avg_meter_sec ws))
        ++ quad_bytes (bytesRawFloat (wind_direction_deg ws))
      else
        pair_bytes (bytesUint16 (wind_gust_meter_sec_fp1 ws))
        ++ pair_bytes (bytesUint16 (wind_avg_meter_sec_fp1 ws))
        ++ pair_bytes (bytesUint16 (wind_direction_deg_fp1 ws)))
  ++ quad_bytes (bytesRawFloat (rain_mm ws))
  ++ (if ADC_EN cfg then pair_bytes (bytesUint16 (getVoltage r)) else [])
  ++ (if PIN_ADC3_IN cfg then pair_bytes (bytesUint16 (getVoltage_adc3 r))
      else [])
  ++ (if ONEWIRE_EN cfg then pair_bytes (bytesTemperature water_temp_c)
      else [])
  ++ (if MITHERMOMETER_EN cfg then
        pair_bytes (bytesTemperature indoor_temp_c)
        ++ [bytesUint8 (add_0_5_to_uint8 indoor_humidity)]
      else []).

(** The readings with the value of [getTemperature()] replaced by [t]. *)
Definition with_getTemperature (t : cfloat) (r : Readings) : Readings :=
  mkReadings (weatherSensor r) t (getVoltage r) (getVoltage_adc3 r)
             (miThermometer_data0 r).

(** The number of bytes [encodePayload] stores under a build configuration. *)
Definition frame_length (cfg : BuildConfig) : nat :=
  ((if SENSORID_EN cfg then 4 else 0) + 1 + 2 + 1
   + (if ENCODE_AS_FLOAT cfg then 12 else 6) + 4
   + (if ADC_EN cfg then 2 else 0) + (if PIN_ADC3_IN cfg then 2 else 0)
   + (if ONEWIRE_EN cfg then 2 else 0)
   + (if MITHERMOMETER_EN cfg then 3 else 0))%nat.

(** [loraData] after the payloads of [history] were encoded into [buffer],
    one after the other. *)
Definition encode_history (cfg : BuildConfig)
    (history : list (bool * Readings)) (buffer : list byte) : list byte :=
  fold_left (fun b h => encodePayload cfg (fst h) (snd h) b) history buffer.

(** The actions logged between two states of a run. *)
Definition new_effects (d d' : Device) : list Effect :=
  skipn (length (effects d)) (effects d').

(** Reading a log: an accepted [SendBuffer] puts an uplink in flight, and
    the next store of [false] to [m_fBusy] ends it. *)
Definition flight_step (n : nat) (fx : Effect) : nat :=
  match fx with
  | FxSendBuffer _ true => S n
  | FxBusy false => Nat.pred n
  | _ => n
  end.

(** The number of uplinks in flight at the end of a log. *)
Definition in_flight (fxs : list Effect) : nat := fold_left flight_step fxs 0%nat.

(** What one event does to the log, to [m_fBusy] and to [loraData]: nothing
    of these, a shutdown, the end of a transmission, or a transmission handed
    to [SendBuffer] and accepted or rejected. *)
Inductive step_shape (cfg : BuildConfig) (d d' : Device) : Event -> Prop :=
| shape_quiet ev :
    effects d' = effects d ->
    m_fBusy (mySensor d') = m_fBusy (mySensor d) ->
    loraData d' = loraData d ->
    step_shape cfg d d' ev
| shape_power ev us :
    effects d' = effects d ++ [FxShutdown; FxDeepSleep us] ->
    mySensor d' = mySensor d ->
    loraData d' = loraData d ->
    step_shape cfg d d' ev
| shape_done fSuccess :
    effects d' = effects d ++ [FxBusy false] ->
    m_fBusy (mySensor d') = false ->
    loraData d' = loraData d ->
    step_shape cfg d d' (EvCallback (CbSendBufferDone fSuccess))
| shape_sent tNow env :
    m_fBusy (mySensor d) = false ->
    SendBuffer_result env = true ->
    effects d' = effects d ++ [FxBusy true; FxSendBuffer (loraData d') true] ->
    m_fBusy (mySensor d') = true ->
    loraData d'
    = encodePayload cfg (runtimeExpired (rtc d)) (readings env) (loraData d) ->
    step_shape cfg d d' (EvSensorLoop tNow env)
| shape_rejected tNow env :
    m_fBusy (mySensor d) = false ->
    SendBuffer_result env = false ->
    effects d' = effects d ++ [FxBusy true; FxSendBuffer (loraData d') false;
                               FxBusy false] ->
    m_fBusy (mySensor d') = false ->
    loraData d'
    = encodePayload cfg (runtimeExpired (rtc d)) (readings env) (loraData d) ->
    step_shape cfg d d' (EvSensorLoop tNow env).

(** A device that the stores of [setup()] and then some events have
    produced.  Events follow [setup()] only in a build in which the call of
    [uplinkRequest] returns; a property of every reachable device holds in
    such a build and says nothing of any other. *)
Definition reachable (cfg : BuildConfig) (d : Device) : Prop :=
  exists (m : RtcMemory) (millis : Z) (evs : list Event),
    run cfg evs (stores (setup millis (boot m))) = Some d.

(** At most one uplink is in flight, and none when [m_fBusy] is clear. *)
Definition flight_ok (d : Device) : Prop :=
  (in_flight (effects d) <= 1)%nat
  /\ (m_fBusy (mySensor d) = false -> in_flight (effects d) = 0%nat).

(** [loraData] has its size, and the bytes no [write...] reaches are zero. *)
Definition reserve_clean (cfg : BuildConfig) (d : Device) : Prop :=
  length (loraData d) = PAYLOAD_SIZE
  /\ skipn (frame_length cfg) (loraData d)
     = repeat x00 (PAYLOAD_SIZE - frame_length cfg).

Definition is_send (fx : Effect) : bool :=
  match fx with FxSendBuffer _ _ => true | _ => false end.

End Sketch.

(** ** A concrete platform and concrete inputs

    For evaluating the model: the LMIC constants with the values of
    [lmic.h] and [oslmic.h] (16 microseconds per tick), a C [float] stood in
    for by an integer count of hundredths, and little-endian renderers. *)

Definition byte_of_Z (z : Z) : byte :=
  match Byte.of_N (Z.to_N (z mod 256)) with
  | Some b => b
  | None => x00
  end.

Definition bit (b : bool) (k : Z) : Z := if b then Z.shiftl 1 k else 0.

Definition esp32 : Platform :=
  mkPlatform
    16 8 128
    62500
    Z
    (fun i => i * 100)
    (fun a b => negb (a =? b))
    (fun i => i)
    (fun f => ((f + 50) / 100) mod 256)
    (-12700)
    byte_of_Z
    (fun i => (byte_of_Z i, byte_of_Z (Z.shiftr i 8)))
    (fun i => (byte_of_Z i, byte_of_Z (Z.shiftr i 8),
               byte_of_Z (Z.shiftr i 16), byte_of_Z (Z.shiftr i 24)))
    (fun t => (byte_of_Z (Z.shiftr (t / 10) 8), byte_of_Z (t / 10)))
    (fun v => (byte_of_Z v, byte_of_Z (Z.shiftr v 8),
               byte_of_Z (Z.shiftr v 16), byte_of_Z (Z.shiftr v 24)))
    (fun a b c d e f g h =>
       byte_of_Z (bit a 7 + bit b 6 + bit c 5 + bit d 4
                  + bit e 3 + bit f 2 + bit g 1 + bit h 0)).

Definition demo_state : SessionState :=
  mkSessionState 1 96 1 5 42 7 0 0 869525000 0 0 0 [x01; x02].

Definition demo_info : SessionInfo :=
  mkSessionInfo 1 48 0 0 19 637534208 (repeat xa5 16) (repeat x5a 16).

Definition demo_abp : AbpProvisioningInfo :=
  mkAbpProvisioningInfo (repeat x00 16) (repeat x00 16) 0 0 0 0.

Definition zero_state : SessionState :=
  mkSessionState 0 0 0 0 0 0 0 0 0 0 0 0 [].

Definition zero_info : SessionInfo :=
  mkSessionInfo 0 0 0 0 0 0 (repeat x00 16) (repeat x00 16).

(** RTC memory after a power-on reset: all zero. *)
Definition rtc_power_on : RtcMemory :=
  mkRtcMemory 0 zero_state 0 zero_info 0 (repeat x00 64) false.

(** RTC memory holding a saved session. *)
Definition rtc_saved : RtcMemory :=
  NetSaveSessionInfo demo_info [x0a; x0b; x0c]
    (NetSaveSessionState demo_state rtc_power_on).

Definition demo_weather : @WeatherSensor esp32 :=
  @mkWeatherSensor esp32 305419896 2130 55 510 240 18000 51 24 1800 1240
                   true true.

Definition demo_readings : @Readings esp32 :=
  @mkReadings esp32 demo_weather 1850 3300 4100
              (mkMiThermometerData true 2215 4730).

Definition env_idle (accepted : bool) : @UplinkEnv esp32 :=
  @mkUplinkEnv esp32 0 demo_readings accepted.

Definition env_lmic_busy : @UplinkEnv esp32 :=
  @mkUplinkEnv esp32 136 demo_readings true.

(** The device with the stores of [setup()] done, woken with a saved
    session. *)
Definition demo_device : Device :=
  stores (@setup esp32 500 (boot rtc_saved)).

(** ** Further code of the sketch *)

(** [Arduino_LoRaWAN::OtaaProvisioningInfo]: the three arrays that
    [GetOtaaProvisioningInfo] fills. *)
Record OtaaProvisioningInfo : Type := mkOtaaProvisioningInfo {
  otaa_AppKey : list byte;
  otaa_DevEUI : list byte;
  otaa_AppEUI : list byte
}.

(** The arrays [deveui], [appeui] and [appkey] of [secrets.h]. *)
Record Secrets : Type := mkSecrets {
  deveui : list byte;
  appeui : list byte;
  appkey : list byte
}.

(** The arrays of the [#ifndef SECRETS] block (lines 413-427). *)
Definition default_secrets : Secrets :=
  mkSecrets (repeat x00 8) (repeat x00 8) (repeat x00 16).

(** [cMyLoRaWAN::GetOtaaProvisioningInfo] (lines 540-553): each [memcpy]
    copies [sizeof] of the destination array. *)
Definition GetOtaaProvisioningInfo (sec : Secrets)
    (pInfo : OtaaProvisioningInfo) : bool * OtaaProvisioningInfo :=
  let DevEUI := memcpy (otaa_DevEUI pInfo) (deveui sec)
                       (length (otaa_DevEUI pInfo)) in
  let AppEUI := memcpy (otaa_AppEUI pInfo) (appeui sec)
                       (length (otaa_AppEUI pInfo)) in
  let AppKey := memcpy (otaa_AppKey pInfo) (appkey sec)
                       (length (otaa_AppKey pInfo)) in
  (true, mkOtaaProvisioningInfo AppKey DevEUI AppEUI).

Definition is_deep_sleep (fx : Effect) : bool :=
  match fx with FxDeepSleep _ => true | _ => false end.

Definition is_shutdown (fx : Effect) : bool :=
  match fx with FxShutdown => true | _ => false end.

Section WakeCycle.

Context {P : Platform}.

(** The next wake cycle: the sleep reset keeps the RTC memory alone, and
    [setup()] stores again. *)
Definition wake (millis : Z) (d : Device) : Device :=
  stores (setup millis (boot (rtc d))).

(** The events that store to the RTC memory. *)
Definition writes_rtc (ev : Event) : bool :=
  match ev with
  | EvCallback (CbNetSaveSessionInfo _ _) => true
  | EvCallback (CbNetSaveSessionState _) => true
  | EvForceSleep _ => true
  | _ => false
  end.

End WakeCycle.

(** * Properties of the session store *)

Lemma MAGIC1_value : MAGIC1 = 1828741937.
Proof. reflexivity. Qed.

Lemma MAGIC2_value : MAGIC2 = 1828741938.
Proof. reflexivity. Qed.

Lemma MAGIC_distinct : MAGIC1 <> MAGIC2.
Proof. rewrite MAGIC1_value, MAGIC2_value. discriminate. Qed.

Lemma MAGIC_nonzero : MAGIC1 <> 0 /\ MAGIC2 <> 0.
Proof. rewrite MAGIC1_value, MAGIC2_value. split; discriminate. Qed.

Lemma memcpy_prefix (dst src : list byte) :
  firstn (length src) (memcpy dst src (length src)) = src.
Proof.
  unfold memcpy. rewrite firstn_all, firstn_app, firstn_all.
  rewrite Nat.sub_diag. simpl. apply app_nil_r.
Qed.

Lemma memcpy_suffix (dst src : list byte) :
  skipn (length src) (memcpy dst src (length src)) = skipn (length src) dst.
Proof.
  unfold memcpy. rewrite firstn_all, skipn_app, skipn_all.
  rewrite Nat.sub_diag. reflexivity.
Qed.

Lemma memcpy_length (dst src : list byte) :
  (length src <= length dst)%nat ->
  length (memcpy dst src (length src)) = length dst.
Proof.
  intros Hle. unfold memcpy.
  rewrite firstn_all, length_app, length_skipn. lia.
Qed.

Lemma NetSaveSessionInfo_over (Info : SessionInfo) (extra : list byte)
    (m : RtcMemory) :
  EXTRA_INFO_MEM_SIZE < Z.of_nat (length extra) ->
  NetSaveSessionInfo Info extra m = m.
Proof.
  intros Hover. unfold NetSaveSessionInfo.
  destruct (Z.gtb_spec (Z.of_nat (length extra)) EXTRA_INFO_MEM_SIZE) as [_|Hle].
  - reflexivity.
  - lia.
Qed.

Lemma NetSaveSessionInfo_within (Info : SessionInfo) (extra : list byte)
    (m : RtcMemory) :
  Z.of_nat (length extra) <= EXTRA_INFO_MEM_SIZE ->
  NetSaveSessionInfo Info extra m =
  mkRtcMemory (magicFlag1 m) (rtcSavedSessionState m) MAGIC2 Info
              (Z.of_nat (length extra))
              (memcpy (rtcSavedExtraInfo m) extra (length extra))
              (runtimeExpired m).
Proof.
  intros Hle. unfold NetSaveSessionInfo.
  destruct (Z.gtb_spec (Z.of_nat (length extra)) EXTRA_INFO_MEM_SIZE) as [Hgt|_].
  - lia.
  - reflexivity.
Qed.

(** C2. [NetSaveSessionInfo] with an extra-info blob longer than
    [EXTRA_INFO_MEM_SIZE] (64) bytes returns the RTC memory it was given,
    unchanged as a whole: saved info, extra bytes, their length and both
    markers.  With a blob of at most 64 bytes it stores [Info], copies the
    blob to the start of [rtcSavedExtraInfo] (the bytes after it are kept),
    records the length, sets [magicFlag2] to [MAGIC2], and leaves the state
    record, its marker and [runtimeExpired] alone. *)
Theorem NetSaveSessionInfo_capacity :
  forall (m : RtcMemory) (Info : SessionInfo) (pExtraInfo : list byte),
    (EXTRA_INFO_MEM_SIZE < Z.of_nat (length pExtraInfo) ->
       NetSaveSessionInfo Info pExtraInfo m = m)
    /\
    (Z.of_nat (length pExtraInfo) <= EXTRA_INFO_MEM_SIZE ->
       let m' := NetSaveSessionInfo Info pExtraInfo m in
       rtcSavedSessionInfo m' = Info
       /\ firstn (length pExtraInfo) (rtcSavedExtraInfo m') = pExtraInfo
       /\ skipn (length pExtraInfo) (rtcSavedExtraInfo m')
          = skipn (length pExtraInfo) (rtcSavedExtraInfo m)
       /\ rtcSavedNExtraInfo m' = Z.of_nat (length pExtraInfo)
       /\ magicFlag2 m' = MAGIC2
       /\ magicFlag1 m' = magicFlag1 m
       /\ rtcSavedSessionState m' = rtcSavedSessionState m
       /\ runtimeExpired m' = runtimeExpired m).
Proof.
  intros m Info extra. split.
  - apply NetSaveSessionInfo_over.
  - intros Hle m'. subst m'. rewrite (NetSaveSessionInfo_within _ _ _ Hle).
    cbn [rtcSavedSessionInfo rtcSavedExtraInfo rtcSavedNExtraInfo magicFlag2
         magicFlag1 rtcSavedSessionState runtimeExpired].
    rewrite memcpy_prefix, memcpy_suffix. repeat split.
Qed.

(** One byte over capacity: 65 bytes leave a saved session as it was. *)
Example NetSaveSessionInfo_65_bytes :
  NetSaveSessionInfo zero_info (repeat xff 65) rtc_saved = rtc_saved.
Proof. reflexivity. Qed.

(** Exactly at capacity: 64 bytes are stored. *)
Example NetSaveSessionInfo_64_bytes :
  let m := NetSaveSessionInfo zero_info (repeat xff 64) rtc_saved in
  rtcSavedSessionInfo m = zero_info
  /\ rtcSavedExtraInfo m = repeat xff 64
  /\ rtcSavedNExtraInfo m = 64.
Proof. repeat split. Qed.

Lemma GetAbpProvisioningInfo_valid (m : RtcMemory) (state : SessionState)
    (pAbpInfo : AbpProvisioningInfo) :
  magicFlag1 m = MAGIC1 -> magicFlag2 m = MAGIC2 ->
  GetAbpProvisioningInfo m state pAbpInfo =
  (true,
   mkAbpProvisioningInfo
     (si_NwkSKey (rtcSavedSessionInfo m)) (si_AppSKey (rtcSavedSessionInfo m))
     (si_DevAddr (rtcSavedSessionInfo m)) (si_NetID (rtcSavedSessionInfo m))
     (ss_FCntUp (rtcSavedSessionState m))
     (ss_FCntDown (rtcSavedSessionState m))).
Proof.
  intros H1 H2. unfold GetAbpProvisioningInfo, NetGetSessionState.
  rewrite H1, H2, !Z.eqb_refl. reflexivity.
Qed.

Lemma GetAbpProvisioningInfo_invalid (m : RtcMemory) (state : SessionState)
    (pAbpInfo : AbpProvisioningInfo) :
  magicFlag1 m <> MAGIC1 \/ magicFlag2 m <> MAGIC2 ->
  GetAbpProvisioningInfo m state pAbpInfo = (false, pAbpInfo).
Proof.
  intros H. unfold GetAbpProvisioningInfo.
  destruct (Z.eqb_spec (magicFlag1 m) MAGIC1) as [E1|N1];
    destruct (Z.eqb_spec (magicFlag2 m) MAGIC2) as [E2|N2];
    try reflexivity.
  destruct H; contradiction.
Qed.

(** C3. [GetAbpProvisioningInfo] reports success exactly when both
    [magicFlag1 = MAGIC1] and [magicFlag2 = MAGIC2].  In that case it fills
    in the saved device address, network id and the two session keys, and the
    two frame counters of the saved state, whatever the local [state] held on
    entry.  Otherwise it returns [false] and leaves the caller's object as it
    was, which is what makes the library join anew. *)
Theorem GetAbpProvisioningInfo_both_markers :
  forall (m : RtcMemory) (state : SessionState) (pAbpInfo : AbpProvisioningInfo),
    (fst (GetAbpProvisioningInfo m state pAbpInfo) = true
       <-> magicFlag1 m = MAGIC1 /\ magicFlag2 m = MAGIC2)
    /\
    (magicFlag1 m = MAGIC1 /\ magicFlag2 m = MAGIC2 ->
       let abp := snd (GetAbpProvisioningInfo m state pAbpInfo) in
       abp_DevAddr abp = si_DevAddr (rtcSavedSessionInfo m)
       /\ abp_NetID abp = si_NetID (rtcSavedSessionInfo m)
       /\ abp_NwkSKey abp = si_NwkSKey (rtcSavedSessionInfo m)
       /\ abp_AppSKey abp = si_AppSKey (rtcSavedSessionInfo m)
       /\ abp_FCntUp abp = ss_FCntUp (rtcSavedSessionState m)
       /\ abp_FCntDown abp = ss_FCntDown (rtcSavedSessionState m))
    /\
    (magicFlag1 m <> MAGIC1 \/ magicFlag2 m <> MAGIC2 ->
       GetAbpProvisioningInfo m state pAbpInfo = (false, pAbpInfo)).
Proof.
  intros m state pAbpInfo. split; [|split].
  - split.
    + intros Hok.
      destruct (Z.eq_dec (magicFlag1 m) MAGIC1) as [E1|N1];
        destruct (Z.eq_dec (magicFlag2 m) MAGIC2) as [E2|N2];
        try (split; assumption);
        rewrite GetAbpProvisioningInfo_invalid in Hok by tauto;
        discriminate Hok.
    + intros [E1 E2]. rewrite GetAbpProvisioningInfo_valid by assumption.
      reflexivity.
  - intros [E1 E2] abp. subst abp.
    rewrite GetAbpProvisioningInfo_valid by assumption.
    repeat split.
  - apply GetAbpProvisioningInfo_invalid.
Qed.

(** A saved session is handed back; after a power-on reset nothing is. *)
Example GetAbpProvisioningInfo_saved :
  GetAbpProvisioningInfo rtc_saved zero_state demo_abp =
  (true, mkAbpProvisioningInfo (repeat xa5 16) (repeat x5a 16) 637534208 19 42 7).
Proof. reflexivity. Qed.

Example GetAbpProvisioningInfo_power_on :
  GetAbpProvisioningInfo rtc_power_on demo_state demo_abp = (false, demo_abp).
Proof. reflexivity. Qed.

(** C5. Round trip: after [NetSaveSessionState State] followed by
    [NetSaveSessionInfo Info pExtraInfo] with a blob of at most 64 bytes,
    whatever the RTC memory held before, [NetGetSessionState] returns [true]
    and [State]; [GetAbpProvisioningInfo] returns [true] (both markers are
    found valid) and the address, network id and keys of [Info] with the
    frame counters of [State]; and the RTC memory holds [State], [Info], the
    blob and its length, with both markers set. *)
Theorem session_round_trip :
  forall (m : RtcMemory) (State : SessionState) (Info : SessionInfo)
         (pExtraInfo : list byte) (State_out state : SessionState)
         (pAbpInfo : AbpProvisioningInfo),
    Z.of_nat (length pExtraInfo) <= EXTRA_INFO_MEM_SIZE ->
    let m' := NetSaveSessionInfo Info pExtraInfo (NetSaveSessionState State m) in
    NetGetSessionState m' State_out = (true, State)
    /\ GetAbpProvisioningInfo m' state pAbpInfo
       = (true,
          mkAbpProvisioningInfo (si_NwkSKey Info) (si_AppSKey Info)
                                (si_DevAddr Info) (si_NetID Info)
                                (ss_FCntUp State) (ss_FCntDown State))
    /\ rtcSavedSessionState m' = State
    /\ rtcSavedSessionInfo m' = Info
    /\ firstn (length pExtraInfo) (rtcSavedExtraInfo m') = pExtraInfo
    /\ rtcSavedNExtraInfo m' = Z.of_nat (length pExtraInfo)
    /\ magicFlag1 m' = MAGIC1
    /\ magicFlag2 m' = MAGIC2.
Proof.
  intros m State Info extra State_out state pAbpInfo Hle m'.
  assert (Hm' : m' = mkRtcMemory MAGIC1 State MAGIC2 Info
                       (Z.of_nat (length extra))
                       (memcpy (rtcSavedExtraInfo m) extra (length extra))
                       (runtimeExpired m)).
  { subst m'. rewrite NetSaveSessionInfo_within by assumption. reflexivity. }
  rewrite Hm'. split; [|split].
  - unfold NetGetSessionState. cbn [magicFlag1 rtcSavedSessionState].
    rewrite Z.eqb_refl. reflexivity.
  - rewrite GetAbpProvisioningInfo_valid by reflexivity. reflexivity.
  - cbn [rtcSavedSessionState rtcSavedSessionInfo rtcSavedExtraInfo
         rtcSavedNExtraInfo magicFlag1 magicFlag2].
    rewrite memcpy_prefix. repeat split.
Qed.

Lemma session_round_trip_witness :
  Z.of_nat (length [x0a; x0b; x0c]) <= EXTRA_INFO_MEM_SIZE
  /\ NetGetSessionState rtc_saved zero_state = (true, demo_state)
  /\ GetAbpProvisioningInfo rtc_saved zero_state demo_abp
     = (true,
        mkAbpProvisioningInfo (si_NwkSKey demo_info) (si_AppSKey demo_info)
                              (si_DevAddr demo_info) (si_NetID demo_info)
                              (ss_FCntUp demo_state) (ss_FCntDown demo_state))
  /\ rtcSavedSessionState rtc_saved = demo_state
  /\ rtcSavedSessionInfo rtc_saved = demo_info
  /\ firstn (length [x0a; x0b; x0c]) (rtcSavedExtraInfo rtc_saved)
     = [x0a; x0b; x0c]
  /\ rtcSavedNExtraInfo rtc_saved = Z.of_nat (length [x0a; x0b; x0c])
  /\ magicFlag1 rtc_saved = MAGIC1
  /\ magicFlag2 rtc_saved = MAGIC2.
Proof.
  split.
  - unfold EXTRA_INFO_MEM_SIZE. simpl. lia.
  - apply (session_round_trip rtc_power_on demo_state demo_info
             [x0a; x0b; x0c] zero_state zero_state demo_abp).
    unfold EXTRA_INFO_MEM_SIZE. simpl. lia.
Defined.

(** With the state marker alone overwritten, the info marker still matches,
    yet [GetAbpProvisioningInfo], the one reader of the saved info, reports
    failure together with [NetGetSessionState]: the info is not reported
    present. *)
Lemma state_marker_corruption_hides_info :
  magicFlag2 (set_magicFlag1 0 rtc_saved) = MAGIC2
  /\ GetAbpProvisioningInfo rtc_saved zero_state demo_abp
     = (true,
        mkAbpProvisioningInfo (repeat xa5 16) (repeat x5a 16) 637534208 19 42 7)
  /\ NetGetSessionState (set_magicFlag1 0 rtc_saved) zero_state
     = (false, zero_state)
  /\ GetAbpProvisioningInfo (set_magicFlag1 0 rtc_saved) zero_state demo_abp
     = (false, demo_abp).
Proof. repeat split. Qed.

(** C6, as the code has it.  Overwriting [magicFlag2] alone with a value
    other than [MAGIC2] does not affect [NetGetSessionState]: a saved state is
    still returned.  Overwriting [magicFlag1] alone with a value other than
    [MAGIC1] makes [NetGetSessionState] return [false] and leaves the info
    marker and the saved info, extra bytes and length in the RTC memory as
    they were.  In both cases [GetAbpProvisioningInfo], which needs both
    markers, returns [false]; a reader that returns [false] hands back the
    caller's object untouched. *)
Theorem marker_independence :
  forall (m : RtcMemory) (v : Z) (State state : SessionState)
         (pAbpInfo : AbpProvisioningInfo),
    (v <> MAGIC1 ->
       let m' := set_magicFlag1 v m in
       NetGetSessionState m' State = (false, State)
       /\ GetAbpProvisioningInfo m' state pAbpInfo = (false, pAbpInfo)
       /\ magicFlag2 m' = magicFlag2 m
       /\ rtcSavedSessionInfo m' = rtcSavedSessionInfo m
       /\ rtcSavedExtraInfo m' = rtcSavedExtraInfo m
       /\ rtcSavedNExtraInfo m' = rtcSavedNExtraInfo m)
    /\
    (v <> MAGIC2 ->
       let m' := set_magicFlag2 v m in
       NetGetSessionState m' State = NetGetSessionState m State
       /\ (magicFlag1 m = MAGIC1 ->
             NetGetSessionState m' State = (true, rtcSavedSessionState m))
       /\ GetAbpProvisioningInfo m' state pAbpInfo = (false, pAbpInfo)
       /\ magicFlag1 m' = magicFlag1 m
       /\ rtcSavedSessionState m' = rtcSavedSessionState m).
Proof.
  intros m v State state pAbpInfo. split; intros Hv m'; subst m'.
  - split; [|split].
    + unfold NetGetSessionState, set_magicFlag1. cbn [magicFlag1].
      destruct (Z.eqb_spec v MAGIC1); [contradiction | reflexivity].
    + apply GetAbpProvisioningInfo_invalid. left. exact Hv.
    + repeat split.
  - split; [|split; [|split]].
    + reflexivity.
    + intros E1. unfold NetGetSessionState, set_magicFlag2.
      cbn [magicFlag1 rtcSavedSessionState].
      rewrite E1, Z.eqb_refl. reflexivity.
    + apply GetAbpProvisioningInfo_invalid. right. exact Hv.
    + repeat split.
Qed.

(** * Properties of the payload encoder *)

Section EncoderProperties.

Context {P : Platform}.

Lemma poke_at (pre : list byte) (h : byte) (t : list byte) (b : byte) :
  poke (pre ++ h :: t) (length pre) b = pre ++ b :: t.
Proof.
  induction pre as [|a pre IH]; simpl.
  - reflexivity.
  - rewrite IH. reflexivity.
Qed.

Lemma poke_length (buf : list byte) (i : nat) (b : byte) :
  length (poke buf i b) = length buf.
Proof.
  revert i. induction buf as [|h t IH]; intros [|i]; simpl; auto.
Qed.

Lemma enc_put_app (bs1 bs2 : list byte) (e : LoraEncoder) :
  enc_put (bs1 ++ bs2) e = enc_put bs2 (enc_put bs1 e).
Proof.
  revert e. induction bs1 as [|b bs1 IH]; intros e; simpl.
  - reflexivity.
  - apply IH.
Qed.

(** Writing [bs] at the cursor replaces exactly the next [length bs] bytes. *)
Lemma enc_put_spec (bs : list byte) :
  forall pre rest : list byte,
    (length bs <= length rest)%nat ->
    enc_put bs (mkEncoder (pre ++ rest) (length pre)) =
    mkEncoder (pre ++ bs ++ skipn (length bs) rest) (length pre + length bs).
Proof.
  induction bs as [|b bs IH]; intros pre rest Hle.
  - simpl. rewrite Nat.add_0_r. reflexivity.
  - destruct rest as [|h t]; [simpl in Hle; lia|].
    cbn [enc_put enc_data enc_pos]. rewrite poke_at.
    replace (pre ++ b :: t) with ((pre ++ [b]) ++ t)
      by (rewrite <- app_assoc; reflexivity).
    replace (S (length pre)) with (length (pre ++ [b]))
      by (rewrite length_app; simpl; lia).
    rewrite IH by (simpl in Hle; lia).
    rewrite length_app, <- app_assoc. simpl.
    f_equal. lia.
Qed.

Lemma writeUint8_put (i : Z) (e : LoraEncoder) :
  writeUint8 i e = enc_put [bytesUint8 i] e.
Proof. reflexivity. Qed.

Lemma writeUint16_put (i : Z) (e : LoraEncoder) :
  writeUint16 i e = enc_put (pair_bytes (bytesUint16 i)) e.
Proof. unfold writeUint16, pair_bytes. destruct (bytesUint16 i). reflexivity. Qed.

Lemma writeUint32_put (i : Z) (e : LoraEncoder) :
  writeUint32 i e = enc_put (quad_bytes (bytesUint32 i)) e.
Proof.
  unfold writeUint32, quad_bytes.
  destruct (bytesUint32 i) as [[[b0 b1] b2] b3]. reflexivity.
Qed.

Lemma writeTemperature_put (t : cfloat) (e : LoraEncoder) :
  writeTemperature t e = enc_put (pair_bytes (bytesTemperature t)) e.
Proof.
  unfold writeTemperature, pair_bytes. destruct (bytesTemperature t).
  reflexivity.
Qed.

Lemma writeRawFloat_put (v : cfloat) (e : LoraEncoder) :
  writeRawFloat v e = enc_put (quad_bytes (bytesRawFloat v)) e.
Proof.
  unfold writeRawFloat, quad_bytes.
  destruct (bytesRawFloat v) as [[[b0 b1] b2] b3]. reflexivity.
Qed.

Lemma pair_bytes_length (p : byte * byte) : length (pair_bytes p) = 2%nat.
Proof. destruct p. reflexivity. Qed.

Lemma quad_bytes_length (q : byte * byte * byte * byte) :
  length (quad_bytes q) = 4%nat.
Proof. destruct q as [[[b0 b1] b2] b3]. reflexivity. Qed.

(** [encodePayload] is one write of [payload_bytes] from the start of the
    buffer. *)
Lemma encodePayload_put (cfg : BuildConfig) (expired : bool) (r : Readings)
    (buffer : list byte) :
  encodePayload cfg expired r buffer =
  enc_data (enc_put (payload_bytes cfg expired r) (LoraEncoder_new buffer)).
Proof.
  unfold encodePayload, payload_bytes, writeBitmap, ifdef.
  cbv zeta.
  destruct (SENSORID_EN cfg), (ENCODE_AS_FLOAT cfg), (ADC_EN cfg),
    (PIN_ADC3_IN cfg), (ONEWIRE_EN cfg), (MITHERMOMETER_EN cfg);
    rewrite ?writeUint8_put, ?writeUint16_put, ?writeUint32_put,
            ?writeTemperature_put, ?writeRawFloat_put, ?enc_put_app;
    reflexivity.
Qed.

Lemma payload_bytes_length (cfg : BuildConfig) (expired : bool) (r : Readings) :
  length (payload_bytes cfg expired r) = frame_length cfg.
Proof.
  unfold payload_bytes, frame_length. cbv zeta.
  destruct (SENSORID_EN cfg), (ENCODE_AS_FLOAT cfg), (ADC_EN cfg),
    (PIN_ADC3_IN cfg), (ONEWIRE_EN cfg), (MITHERMOMETER_EN cfg);
    repeat (rewrite ?length_app, ?pair_bytes_length, ?quad_bytes_length;
            cbn [length app]);
    reflexivity.
Qed.

(** No configuration fills the payload buffer: at most 33 of its 36 bytes
    are written. *)
Lemma encode_fits (cfg : BuildConfig) :
  (frame_length cfg <= 33)%nat /\ (frame_length cfg <= PAYLOAD_SIZE)%nat.
Proof.
  unfold frame_length, PAYLOAD_SIZE.
  destruct (SENSORID_EN cfg), (ENCODE_AS_FLOAT cfg), (ADC_EN cfg),
    (PIN_ADC3_IN cfg), (ONEWIRE_EN cfg), (MITHERMOMETER_EN cfg);
    simpl; lia.
Qed.

(** On a buffer of [PAYLOAD_SIZE] bytes the encoder replaces the first
    [frame_length cfg] bytes and keeps the rest. *)
Lemma encodePayload_spec (cfg : BuildConfig) (expired : bool) (r : Readings)
    (buffer : list byte) :
  length buffer = PAYLOAD_SIZE ->
  encodePayload cfg expired r buffer =
  payload_bytes cfg expired r ++ skipn (frame_length cfg) buffer.
Proof.
  intros Hlen. rewrite encodePayload_put. unfold LoraEncoder_new.
  pose proof (encode_fits cfg) as [_ Hfit].
  pose proof (enc_put_spec (payload_bytes cfg expired r) [] buffer) as Hput.
  simpl in Hput. rewrite Hput.
  - simpl. rewrite payload_bytes_length. reflexivity.
  - rewrite payload_bytes_length, Hlen. exact Hfit.
Qed.

End EncoderProperties.

(** * Properties of the scheduler and the controller *)

Section DeviceProperties.

Context {P : Platform}.

Lemma new_effects_app (d d' : Device) (l : list Effect) :
  effects d' = effects d ++ l -> new_effects d d' = l.
Proof.
  intros H. unfold new_effects. rewrite H, skipn_app, skipn_all, Nat.sub_diag.
  reflexivity.
Qed.

Lemma new_effects_same (d d' : Device) :
  effects d' = effects d -> new_effects d d' = [].
Proof.
  intros H. apply new_effects_app. rewrite app_nil_r. exact H.
Qed.

(** Closes a goal whose hypothesis [Hin] finds, among the actions that [He]
    lists as logged, one that is not there. *)
Ltac not_logged He Hin :=
  first [ rewrite (new_effects_same _ _ He) in Hin
        | rewrite (new_effects_app _ _ _ He) in Hin ];
  simpl in Hin;
  repeat (destruct Hin as [Hin|Hin]; [discriminate Hin|]);
  contradiction.

(** [doUplink] when it returns at one of its two guards. *)
Lemma doUplink_skip (cfg : BuildConfig) (env : UplinkEnv) (d : Device) :
  m_fBusy (mySensor d) = true \/ LMIC_busy (LMIC_opmode env) = true ->
  doUplink cfg env d = d.
Proof.
  intros [Hb|Hl]; unfold doUplink.
  - rewrite Hb. reflexivity.
  - rewrite Hl. destruct (m_fBusy (mySensor d)); reflexivity.
Qed.

(** [doUplink] when it passes both guards. *)
Lemma doUplink_send (cfg : BuildConfig) (env : UplinkEnv) (d : Device) :
  m_fBusy (mySensor d) = false -> LMIC_busy (LMIC_opmode env) = false ->
  let frame :=
    encodePayload cfg (runtimeExpired (rtc d)) (readings env) (loraData d) in
  doUplink cfg env d =
  mkDevice (rtc d)
           (mkSensor (m_fUplinkRequest (mySensor d)) (SendBuffer_result env)
                     (m_uplinkPeriodMs (mySensor d)) (m_tReference (mySensor d)))
           frame (sleepTimeout d) (asleep d)
           (effects d
            ++ FxBusy true :: FxSendBuffer frame (SendBuffer_result env)
               :: (if SendBuffer_result env then [] else [FxBusy false])).
Proof.
  intros Hb Hl frame. subst frame. unfold doUplink. rewrite Hb, Hl.
  destruct (SendBuffer_result env);
    unfold set_m_fBusy, log, set_mySensor, set_loraData; simpl;
    rewrite <- ?app_assoc; reflexivity.
Qed.

Lemma loop_schedule_busy (tNow : Z) (s s' : cSensor) :
  loop_schedule tNow s = Some s' ->
  m_fBusy s' = m_fBusy s /\ m_uplinkPeriodMs s' = m_uplinkPeriodMs s.
Proof.
  unfold loop_schedule.
  destruct (u32 (tNow - m_tReference s) >=? m_uplinkPeriodMs s).
  - destruct (m_uplinkPeriodMs s =? 0); [discriminate|].
    intros H. injection H as <-. split; reflexivity.
  - intros H. injection H as <-. split; reflexivity.
Qed.

Lemma doUplink_shape (cfg : BuildConfig) (tNow : Z) (env : UplinkEnv)
    (d0 d : Device) :
  effects d = effects d0 -> m_fBusy (mySensor d) = m_fBusy (mySensor d0) ->
  loraData d = loraData d0 -> rtc d = rtc d0 ->
  step_shape cfg d0 (doUplink cfg env d) (EvSensorLoop tNow env).
Proof.
  intros He Hb Hl Hr.
  destruct (m_fBusy (mySensor d)) eqn:Eb.
  - rewrite doUplink_skip by (left; exact Eb).
    apply shape_quiet; congruence.
  - destruct (LMIC_busy (LMIC_opmode env)) eqn:El.
    + rewrite doUplink_skip by (right; exact El).
      apply shape_quiet; congruence.
    + rewrite doUplink_send by assumption.
      destruct (SendBuffer_result env) eqn:Eok.
      * apply shape_sent; cbn; try congruence.
      * apply shape_rejected; cbn; try congruence.
Qed.

Lemma cSensor_loop_shape (cfg : BuildConfig) (tNow : Z) (env : UplinkEnv)
    (d d' : Device) :
  cSensor_loop cfg tNow env d = Some d' ->
  step_shape cfg d d' (EvSensorLoop tNow env).
Proof.
  unfold cSensor_loop.
  destruct (loop_schedule tNow (mySensor d)) as [s|] eqn:Es; [|discriminate].
  apply loop_schedule_busy in Es. destruct Es as [Hb _].
  destruct (m_fUplinkRequest s); intros H; injection H as <-.
  - apply doUplink_shape; cbn; auto.
  - apply shape_quiet; cbn; auto.
Qed.

Lemma step_has_shape (cfg : BuildConfig) (ev : Event) (d d' : Device) :
  step cfg ev d = Some d' -> step_shape cfg d d' ev.
Proof.
  unfold step. destruct (asleep d) eqn:Ea.
  - intros H. injection H as <-. apply shape_quiet; reflexivity.
  - destruct ev as [cb|tNow env|now]; cbn [handle].
    + intros H. injection H as <-. destruct cb; cbn [callback].
      * apply shape_quiet; reflexivity.
      * unfold NetTxComplete. destruct (SLEEP_EN cfg).
        -- apply shape_power with (us := SLEEP_INTERVAL * 1000000);
             cbn; rewrite <- ?app_assoc; reflexivity.
        -- apply shape_quiet; reflexivity.
      * apply shape_quiet; reflexivity.
      * apply shape_quiet; reflexivity.
      * apply shape_done; reflexivity.
    + apply cSensor_loop_shape.
    + intros H. injection H as <-. unfold loop_force_sleep.
      destruct (FORCE_SLEEP cfg && (now >? sleepTimeout d)).
      * apply shape_power with (us := SLEEP_INTERVAL * 1000000);
          cbn; rewrite <- ?app_assoc; reflexivity.
      * apply shape_quiet; reflexivity.
Qed.

Lemma run_invariant (cfg : BuildConfig) (I : Device -> Prop) :
  (forall ev d d', I d -> step cfg ev d = Some d' -> I d') ->
  forall evs d d', I d -> run cfg evs d = Some d' -> I d'.
Proof.
  intros Hstep evs. induction evs as [|ev evs IH]; intros d d' Hd Hrun.
  - simpl in Hrun. injection Hrun as <-. exact Hd.
  - simpl in Hrun. destruct (step cfg ev d) as [d1|] eqn:E1; [|discriminate].
    apply (IH d1 d'); [|exact Hrun]. exact (Hstep ev d d1 Hd E1).
Qed.

Lemma in_flight_app (l l' : list Effect) :
  in_flight (l ++ l') = fold_left flight_step l' (in_flight l).
Proof. unfold in_flight. apply fold_left_app. Qed.

Lemma step_flight_ok (cfg : BuildConfig) (ev : Event) (d d' : Device) :
  flight_ok d -> step cfg ev d = Some d' -> flight_ok d'.
Proof.
  intros [Hle Hz] Hstep. apply step_has_shape in Hstep.
  unfold flight_ok.
  destruct Hstep as [ev He Hb _|ev us He Hs _|fS He Hb _
                     |tNow env Hb0 _ He Hb _|tNow env Hb0 _ He Hb _].
  - rewrite He, Hb. split; assumption.
  - rewrite He, Hs, in_flight_app. cbn. split; assumption.
  - rewrite He, in_flight_app. cbn. split; intros; lia.
  - rewrite He, Hb, in_flight_app, (Hz Hb0). cbn.
    split; [lia | discriminate].
  - rewrite He, in_flight_app, (Hz Hb0). cbn. split; intros; lia.
Qed.

Lemma setup_flight_ok (millis : Z) (m : RtcMemory) :
  flight_ok (stores (setup millis (boot m))).
Proof. split; cbn; intros; lia. Qed.

Lemma reachable_flight_ok (cfg : BuildConfig) (d : Device) :
  reachable cfg d -> flight_ok d.
Proof.
  intros (m & millis & evs & Hrun).
  apply (run_invariant cfg flight_ok (step_flight_ok cfg) evs _ d
           (setup_flight_ok millis m) Hrun).
Qed.

Lemma encodePayload_reserve (cfg : BuildConfig) (expired : bool)
    (r : Readings) (buffer : list byte) :
  length buffer = PAYLOAD_SIZE ->
  length (encodePayload cfg expired r buffer) = PAYLOAD_SIZE
  /\ skipn (frame_length cfg) (encodePayload cfg expired r buffer)
     = skipn (frame_length cfg) buffer.
Proof.
  intros Hlen. rewrite encodePayload_spec by exact Hlen.
  pose proof (encode_fits cfg) as [_ Hfit].
  pose proof (payload_bytes_length cfg expired r) as Hpl.
  split.
  - rewrite length_app, length_skipn, Hpl, Hlen. lia.
  - rewrite skipn_app, Hpl, Nat.sub_diag.
    rewrite skipn_all2 by (rewrite Hpl; lia). reflexivity.
Qed.

Lemma step_reserve_clean (cfg : BuildConfig) (ev : Event) (d d' : Device) :
  reserve_clean cfg d -> step cfg ev d = Some d' -> reserve_clean cfg d'.
Proof.
  intros [Hlen Hres] Hstep. apply step_has_shape in Hstep.
  unfold reserve_clean.
  destruct Hstep as [ev _ _ Hl|ev us _ _ Hl|fS _ _ Hl
                     |tNow env _ _ _ _ Hl|tNow env _ _ _ _ Hl];
    rewrite Hl; try (split; assumption);
    destruct (encodePayload_reserve cfg (runtimeExpired (rtc d))
                (readings env) (loraData d) Hlen) as [Hlen' Hres'];
    split; congruence.
Qed.

Lemma skipn_repeat_sub (x : byte) (n k : nat) :
  skipn n (repeat x k) = repeat x (k - n).
Proof.
  revert k. induction n as [|n IH]; intros [|k]; simpl; auto.
Qed.

Lemma setup_reserve_clean (cfg : BuildConfig) (millis : Z) (m : RtcMemory) :
  reserve_clean cfg (stores (setup millis (boot m))).
Proof.
  split; cbn [stores setup boot loraData uplinkRequest cSensor_setup
              set_mySensor set_sleepTimeout mySensor].
  - apply repeat_length.
  - apply skipn_repeat_sub.
Qed.

Lemma reachable_reserve_clean (cfg : BuildConfig) (d : Device) :
  reachable cfg d -> reserve_clean cfg d.
Proof.
  intros (m & millis & evs & Hrun).
  apply (run_invariant cfg (reserve_clean cfg) (step_reserve_clean cfg) evs _ d
           (setup_reserve_clean cfg millis m) Hrun).
Qed.

Lemma encode_history_reserve (cfg : BuildConfig)
    (history : list (bool * Readings)) :
  forall buffer : list byte,
    length buffer = PAYLOAD_SIZE ->
    length (encode_history cfg history buffer) = PAYLOAD_SIZE
    /\ skipn (frame_length cfg) (encode_history cfg history buffer)
       = skipn (frame_length cfg) buffer.
Proof.
  induction history as [|[e r] history IH]; intros buffer Hlen.
  - split; [exact Hlen | reflexivity].
  - change (encode_history cfg ((e, r) :: history) buffer)
      with (encode_history cfg history (encodePayload cfg e r buffer)).
    destruct (encodePayload_reserve cfg e r buffer Hlen) as [Hlen1 Hres1].
    destruct (IH _ Hlen1) as [Hlen2 Hres2].
    split; [exact Hlen2 | congruence].
Qed.

Lemma doUplink_sensor (cfg : BuildConfig) (env : UplinkEnv) (d : Device) :
  m_fUplinkRequest (mySensor (doUplink cfg env d)) = m_fUplinkRequest (mySensor d)
  /\ m_uplinkPeriodMs (mySensor (doUplink cfg env d)) = m_uplinkPeriodMs (mySensor d)
  /\ m_tReference (mySensor (doUplink cfg env d)) = m_tReference (mySensor d).
Proof.
  destruct (m_fBusy (mySensor d)) eqn:Eb.
  - rewrite doUplink_skip by (left; exact Eb). repeat split.
  - destruct (LMIC_busy (LMIC_opmode env)) eqn:El.
    + rewrite doUplink_skip by (right; exact El). repeat split.
    + rewrite doUplink_send by assumption. repeat split.
Qed.

Lemma shape_sends (cfg : BuildConfig) (ev : Event) (d d' : Device) :
  step_shape cfg d d' ev ->
  (length (filter is_send (new_effects d d')) <= 1)%nat.
Proof.
  intros [ev' He _ _|ev' us He _ _|fS He _ _
          |tNow env _ _ He _ _|tNow env _ _ He _ _].
  - rewrite (new_effects_same _ _ He). simpl. lia.
  - rewrite (new_effects_app _ _ _ He). simpl. lia.
  - rewrite (new_effects_app _ _ _ He). simpl. lia.
  - rewrite (new_effects_app _ _ _ He). simpl. lia.
  - rewrite (new_effects_app _ _ _ He). simpl. lia.
Qed.

Lemma u32_add_u32 (a b : Z) : u32 (a + u32 b) = u32 (a + b).
Proof. unfold u32. apply Z.add_mod_idemp_r. lia. Qed.

Lemma s32_small (x : Z) : - 2 ^ 31 <= x < 2 ^ 31 -> s32 x = x.
Proof. intros H. unfold s32. rewrite Z.mod_small by lia. lia. Qed.

Lemma loop_schedule_due (tNow : Z) (s : cSensor) :
  0 < m_uplinkPeriodMs s ->
  m_uplinkPeriodMs s <= u32 (tNow - m_tReference s) ->
  loop_schedule tNow s =
  Some (mkSensor true (m_fBusy s) (m_uplinkPeriodMs s)
          (u32 (m_tReference s
                + u32 (tNow - m_tReference s) / m_uplinkPeriodMs s
                  * m_uplinkPeriodMs s))).
Proof.
  intros Hpos Hdue. unfold loop_schedule.
  destruct (Z.geb_spec (u32 (tNow - m_tReference s)) (m_uplinkPeriodMs s))
    as [_|Hlt]; [|lia].
  destruct (Z.eqb_spec (m_uplinkPeriodMs s) 0) as [E0|_]; [lia|].
  rewrite u32_add_u32. reflexivity.
Qed.

Lemma loop_schedule_not_due (tNow : Z) (s : cSensor) :
  u32 (tNow - m_tReference s) < m_uplinkPeriodMs s ->
  loop_schedule tNow s = Some s.
Proof.
  intros Hlt. unfold loop_schedule.
  destruct (Z.geb_spec (u32 (tNow - m_tReference s)) (m_uplinkPeriodMs s))
    as [Hge|_]; [lia | reflexivity].
Qed.

Lemma set_mySensor_same (d : Device) : set_mySensor (mySensor d) d = d.
Proof. destruct d. reflexivity. Qed.

(** ** Uplink scheduling *)

(** C4. In [cSensor::loop], with a period that is not zero: when the time
    elapsed since [m_tReference] (modulo 2^32) reaches the period, the uplink
    request is set, [m_tReference] advances by floor(elapsed / period) whole
    periods (modulo 2^32), at least one, and [doUplink] runs exactly once, on
    the state with the advanced reference and the request taken back; that
    tick hands at most one buffer to [SendBuffer].  When less than a period
    has elapsed, the tick of [cSensor::loop] marks nothing due and leaves
    [m_tReference] as it is: without a request pending the whole device is
    returned unchanged, nothing is sent and nothing is logged; a request
    that was pending is served by one [doUplink] and taken back, the
    reference staying where it was.  With a period of 360000 ms and 900000
    ms elapsed, the reference advances by 720000 ms (exactly, when the sum
    stays below 2^32). *)
Theorem scheduler_catch_up :
  forall (cfg : BuildConfig) (tNow : Z) (env : UplinkEnv) (d : Device),
    let s := mySensor d in
    let period := m_uplinkPeriodMs s in
    let elapsed := u32 (tNow - m_tReference s) in
    let reference' := u32 (m_tReference s + elapsed / period * period) in
    0 < period ->
    (period <= elapsed ->
       loop_schedule tNow s = Some (mkSensor true (m_fBusy s) period reference')
       /\ 1 <= elapsed / period
       /\ cSensor_loop cfg tNow env d
          = Some (doUplink cfg env
                    (set_mySensor (mkSensor false (m_fBusy s) period reference')
                                  d))
       /\ (forall d', cSensor_loop cfg tNow env d = Some d' ->
             m_fUplinkRequest (mySensor d') = false
             /\ m_tReference (mySensor d') = reference'
             /\ (length (filter is_send (new_effects d d')) <= 1)%nat))
    /\ (elapsed < period ->
          loop_schedule tNow s = Some s
          /\ cSensor_loop cfg tNow env d
             = Some (if m_fUplinkRequest s
                     then doUplink cfg env
                            (set_mySensor
                               (mkSensor false (m_fBusy s) period
                                         (m_tReference s)) d)
                     else d)
          /\ (m_fUplinkRequest s = false ->
                cSensor_loop cfg tNow env d = Some d)
          /\ (forall d', cSensor_loop cfg tNow env d = Some d' ->
                m_tReference (mySensor d') = m_tReference s
                /\ m_fUplinkRequest (mySensor d') = false
                /\ (m_fUplinkRequest s = false -> new_effects d d' = [])))
    /\ (period = 360000 -> elapsed = 900000 ->
          loop_schedule tNow s
          = Some (mkSensor true (m_fBusy s) 360000
                           (u32 (m_tReference s + 720000)))
          /\ (0 <= m_tReference s -> m_tReference s + 720000 < 2 ^ 32 ->
                u32 (m_tReference s + 720000) = m_tReference s + 720000)).
Proof.
  intros cfg tNow env d s period elapsed reference' Hpos.
  assert (Hdue : period <= elapsed ->
                 loop_schedule tNow s
                 = Some (mkSensor true (m_fBusy s) period reference')).
  { intros Hle. apply loop_schedule_due; assumption. }
  split; [|split].
  - intros Hle. pose proof (Hdue Hle) as Hs.
    assert (Hloop : cSensor_loop cfg tNow env d
                    = Some (doUplink cfg env
                              (set_mySensor
                                 (mkSensor false (m_fBusy s) period reference')
                                 d))).
    { unfold cSensor_loop. fold s. rewrite Hs. reflexivity. }
    split; [exact Hs|]. split; [|split; [exact Hloop|]].
    + apply Z.div_le_lower_bound; lia.
    + intros d' Hd'. split; [|split].
      * rewrite Hloop in Hd'. injection Hd' as <-.
        destruct (doUplink_sensor cfg env
                    (set_mySensor
                       (mkSensor false (m_fBusy s) period reference') d))
          as [Hr _].
        rewrite Hr. reflexivity.
      * rewrite Hloop in Hd'. injection Hd' as <-.
        destruct (doUplink_sensor cfg env
                    (set_mySensor
                       (mkSensor false (m_fBusy s) period reference') d))
          as (_ & _ & Ht).
        rewrite Ht. reflexivity.
      * apply (shape_sends cfg (EvSensorLoop tNow env)).
        apply cSensor_loop_shape. exact Hd'.
  - intros Hlt. pose proof (loop_schedule_not_due tNow s Hlt) as Hs.
    assert (Hloop : cSensor_loop cfg tNow env d
                    = Some (if m_fUplinkRequest s
                            then doUplink cfg env
                                   (set_mySensor
                                      (mkSensor false (m_fBusy s) period
                                                (m_tReference s)) d)
                            else d)).
    { unfold cSensor_loop. fold s. rewrite Hs.
      destruct (m_fUplinkRequest s); [reflexivity|].
      subst s. rewrite set_mySensor_same. reflexivity. }
    split; [exact Hs|]. split; [exact Hloop|]. split.
    + intros Hreq. rewrite Hloop, Hreq. reflexivity.
    + intros d' Hd'. rewrite Hloop in Hd'. injection Hd' as <-.
      destruct (m_fUplinkRequest s) eqn:Ereq.
      * destruct (doUplink_sensor cfg env
                    (set_mySensor
                       (mkSensor false (m_fBusy s) period (m_tReference s)) d))
          as (Hr & _ & Ht).
        rewrite Hr, Ht. split; [reflexivity|]. split; [reflexivity|].
        discriminate.
      * split; [reflexivity|]. split; [exact Ereq|].
        intros _. apply new_effects_same. reflexivity.
  - intros Hp He. split.
    + rewrite Hdue by lia. subst reference'. rewrite Hp, He. reflexivity.
    + intros Hlo Hhi. unfold u32. apply Z.mod_small. lia.
Qed.

(** ** Single flight *)

(** C10. When [doUplink] passes its two guards, the log of the call starts
    with the store of [true] to [m_fBusy] followed by the call of
    [SendBuffer] on the encoded buffer: the flag is set before the send is
    issued, accepted or not.  If [SendBuffer] returns [false], a store of
    [false] follows and [doUplink] returns with the flag clear, so the next
    call that finds the LMIC idle passes the guards again and issues a send.
    If it returns [true], the flag stays set. *)
Theorem doUplink_busy_flag :
  forall (cfg : BuildConfig) (env : UplinkEnv) (d : Device),
    m_fBusy (mySensor d) = false ->
    LMIC_busy (LMIC_opmode env) = false ->
    let d' := doUplink cfg env d in
    let frame :=
      encodePayload cfg (runtimeExpired (rtc d)) (readings env) (loraData d) in
    (exists rest,
        new_effects d d'
        = FxBusy true :: FxSendBuffer frame (SendBuffer_result env) :: rest)
    /\ (SendBuffer_result env = false ->
          new_effects d d'
          = [FxBusy true; FxSendBuffer frame false; FxBusy false]
          /\ m_fBusy (mySensor d') = false
          /\ forall env',
               LMIC_busy (LMIC_opmode env') = false ->
               exists frame' rest,
                 new_effects d' (doUplink cfg env' d')
                 = FxBusy true
                   :: FxSendBuffer frame' (SendBuffer_result env') :: rest)
    /\ (SendBuffer_result env = true ->
          new_effects d d' = [FxBusy true; FxSendBuffer frame true]
          /\ m_fBusy (mySensor d') = true).
Proof.
  intros cfg env d Hb Hl d' frame.
  assert (Hd' : d' = doUplink cfg env d) by reflexivity.
  rewrite doUplink_send in Hd' by assumption. fold frame in Hd'.
  assert (He : effects d'
               = effects d
                 ++ FxBusy true :: FxSendBuffer frame (SendBuffer_result env)
                    :: (if SendBuffer_result env then [] else [FxBusy false]))
    by (rewrite Hd'; reflexivity).
  assert (Hb' : m_fBusy (mySensor d') = SendBuffer_result env)
    by (rewrite Hd'; reflexivity).
  apply new_effects_app in He.
  split; [|split].
  - eexists. exact He.
  - intros Hrej. rewrite Hrej in He, Hb'.
    split; [exact He|]. split; [exact Hb'|].
    intros env' Hl'. eexists. eexists.
    apply new_effects_app.
    rewrite (doUplink_send cfg env' d' Hb' Hl'). cbn [effects]. reflexivity.
  - intros Hacc. rewrite Hacc in He, Hb'. split; assumption.
Qed.

(** C1, as the code has it.  [doUplink] called while [m_fBusy] is set, or
    while [LMIC.opmode] has one of [OP_POLL], [OP_TXDATA], [OP_TXRXPEND],
    returns the device unchanged: no send, no store to the sensor state, the
    payload buffer or the log.  An event starts a transmission only from a
    state with the flag clear, and leaves the flag set.  The completion
    function of [SendBuffer] clears the flag, whatever it found and whatever
    [fSuccess] is: it stores [false] to [m_fBusy] and does nothing else, it
    is what the completion event runs on a device that is awake, after it no
    uplink is in flight, and the next [doUplink] that finds the LMIC idle
    sends again.  Besides, [false] is stored only by [doUplink] itself,
    right after a [SendBuffer] that returned [false] in the same call; so an
    event that finds the flag set and leaves it clear is the completion
    function.  The [FORCE_SLEEP] check does not touch the sensor state.  On
    every device reachable from [setup()] at most one uplink is in flight. *)
Theorem single_flight :
  forall (cfg : BuildConfig) (d : Device),
    (forall env : UplinkEnv,
        m_fBusy (mySensor d) = true \/ LMIC_busy (LMIC_opmode env) = true ->
        doUplink cfg env d = d)
    /\ (forall ev d' frame,
          step cfg ev d = Some d' ->
          In (FxSendBuffer frame true) (new_effects d d') ->
          m_fBusy (mySensor d) = false /\ m_fBusy (mySensor d') = true)
    /\ (forall ev d',
          step cfg ev d = Some d' ->
          In (FxBusy false) (new_effects d d') ->
          (exists fSuccess, ev = EvCallback (CbSendBufferDone fSuccess))
          \/ (exists tNow env,
                ev = EvSensorLoop tNow env
                /\ m_fBusy (mySensor d) = false
                /\ SendBuffer_result env = false
                /\ new_effects d d'
                   = [FxBusy true; FxSendBuffer (loraData d') false;
                      FxBusy false]))
    /\ (forall ev d',
          step cfg ev d = Some d' ->
          m_fBusy (mySensor d) = true -> m_fBusy (mySensor d') = false ->
          exists fSuccess, ev = EvCallback (CbSendBufferDone fSuccess))
    /\ (forall now, mySensor (loop_force_sleep cfg now d) = mySensor d)
    /\ (reachable cfg d -> (in_flight (effects d) <= 1)%nat)
    /\ (forall fSuccess,
          let d' := SendBuffer_done fSuccess d in
          m_fBusy (mySensor d') = false
          /\ new_effects d d' = [FxBusy false]
          /\ (asleep d = false ->
                step cfg (EvCallback (CbSendBufferDone fSuccess)) d = Some d')
          /\ (reachable cfg d -> in_flight (effects d') = 0%nat)
          /\ (forall env,
                LMIC_busy (LMIC_opmode env) = false ->
                exists frame rest,
                  new_effects d' (doUplink cfg env d')
                  = FxBusy true
                    :: FxSendBuffer frame (SendBuffer_result env) :: rest)).
Proof.
  intros cfg d. split; [|split; [|split; [|split; [|split; [|split]]]]].
  - intros env. apply doUplink_skip.
  - intros ev d' frame Hstep Hin. apply step_has_shape in Hstep.
    destruct Hstep as [ev He _ _|ev us He _ _|fS He _ _
                       |tNow env Hb0 _ He Hb _|tNow env _ _ He _ _];
      try (split; assumption); not_logged He Hin.
  - intros ev d' Hstep Hin. apply step_has_shape in Hstep.
    destruct Hstep as [ev He _ _|ev us He _ _|fS He _ _
                       |tNow env _ _ He _ _|tNow env Hb0 Hrej He _ _].
    + not_logged He Hin.
    + not_logged He Hin.
    + left. exists fS. reflexivity.
    + not_logged He Hin.
    + right. exists tNow, env. repeat split; try assumption.
      apply new_effects_app. exact He.
  - intros ev d' Hstep Hset Hclear. apply step_has_shape in Hstep.
    destruct Hstep as [ev _ Hb _|ev us _ Hs _|fS _ _ _
                       |tNow env Hb0 _ _ _ _|tNow env Hb0 _ _ _ _];
      try congruence.
    exists fS. reflexivity.
  - intros now. unfold loop_force_sleep.
    destruct (FORCE_SLEEP cfg && (now >? sleepTimeout d)); reflexivity.
  - intros Hreach. apply (reachable_flight_ok cfg d Hreach).
  - intros fSuccess d'.
    assert (He : effects d' = effects d ++ [FxBusy false]) by reflexivity.
    assert (Hb : m_fBusy (mySensor d') = false) by reflexivity.
    split; [exact Hb|]. split; [apply new_effects_app; exact He|].
    split; [|split].
    + intros Ha. unfold step. rewrite Ha. reflexivity.
    + intros Hreach. destruct (reachable_flight_ok cfg d Hreach) as [Hle _].
      rewrite He, in_flight_app. cbn. lia.
    + intros env Hl. eexists. eexists. apply new_effects_app.
      rewrite (doUplink_send cfg env d' Hb Hl). cbn [effects]. reflexivity.
Qed.

(** ** Shutdown and the sleep deadline *)

Lemma doUplink_frame (cfg : BuildConfig) (env : UplinkEnv) (d : Device) :
  rtc (doUplink cfg env d) = rtc d
  /\ sleepTimeout (doUplink cfg env d) = sleepTimeout d
  /\ asleep (doUplink cfg env d) = asleep d.
Proof.
  destruct (m_fBusy (mySensor d)) eqn:Eb.
  - rewrite doUplink_skip by (left; exact Eb). repeat split.
  - destruct (LMIC_busy (LMIC_opmode env)) eqn:El.
    + rewrite doUplink_skip by (right; exact El). repeat split.
    + rewrite doUplink_send by assumption. repeat split.
Qed.

Lemma cSensor_loop_frame (cfg : BuildConfig) (tNow : Z) (env : UplinkEnv)
    (d d' : Device) :
  cSensor_loop cfg tNow env d = Some d' ->
  rtc d' = rtc d /\ sleepTimeout d' = sleepTimeout d /\ asleep d' = asleep d
  /\ m_uplinkPeriodMs (mySensor d') = m_uplinkPeriodMs (mySensor d).
Proof.
  unfold cSensor_loop.
  destruct (loop_schedule tNow (mySensor d)) as [s|] eqn:Es; [|discriminate].
  apply loop_schedule_busy in Es. destruct Es as [_ Hp].
  destruct (m_fUplinkRequest s); intros H; injection H as <-.
  - destruct (doUplink_frame cfg env
                (set_mySensor (mkSensor false (m_fBusy s) (m_uplinkPeriodMs s)
                                        (m_tReference s)) d))
      as (Hr & Ht & Ha).
    destruct (doUplink_sensor cfg env
                (set_mySensor (mkSensor false (m_fBusy s) (m_uplinkPeriodMs s)
                                        (m_tReference s)) d))
      as (_ & Hper & _).
    rewrite Hr, Ht, Ha, Hper. repeat split. exact Hp.
  - repeat split. exact Hp.
Qed.

(** C7, as the code has it.  With [SLEEP_EN], [NetTxComplete] calls
    [Shutdown()] and then [ESP.deepSleep] for [SLEEP_INTERVAL] seconds
    (360000000 microseconds), after which no code of the cycle runs; both
    markers and the saved state, info and extra bytes in the RTC memory are
    left as they were, as is the whole RTC memory.  The markers are cleared
    by the [FORCE_SLEEP] block of [loop()] when the deadline has passed;
    that block also sets [runtimeExpired] before the same shutdown and deep
    sleep.  No other event clears a marker: an event that finds a marker
    valid and leaves it invalid is that block, run past the deadline. *)
Theorem NetTxComplete_powers_down :
  forall (cfg : BuildConfig) (d : Device),
    SLEEP_EN cfg = true ->
    let d' := NetTxComplete cfg d in
    new_effects d d' = [FxShutdown; FxDeepSleep 360000000]
    /\ asleep d' = true
    /\ (forall ev, step cfg ev d' = Some d')
    /\ magicFlag1 (rtc d') = magicFlag1 (rtc d)
    /\ magicFlag2 (rtc d') = magicFlag2 (rtc d)
    /\ rtcSavedSessionState (rtc d') = rtcSavedSessionState (rtc d)
    /\ rtcSavedSessionInfo (rtc d') = rtcSavedSessionInfo (rtc d)
    /\ rtcSavedNExtraInfo (rtc d') = rtcSavedNExtraInfo (rtc d)
    /\ rtcSavedExtraInfo (rtc d') = rtcSavedExtraInfo (rtc d)
    /\ (forall now,
          FORCE_SLEEP cfg = true -> sleepTimeout d < now ->
          let d2 := loop_force_sleep cfg now d in
          new_effects d d2 = [FxShutdown; FxDeepSleep 360000000]
          /\ asleep d2 = true
          /\ magicFlag1 (rtc d2) = 0 /\ magicFlag2 (rtc d2) = 0
          /\ magicFlag1 (rtc d2) <> MAGIC1 /\ magicFlag2 (rtc d2) <> MAGIC2
          /\ runtimeExpired (rtc d2) = true)
    /\ rtc d' = rtc d
    /\ (forall ev d1,
          step cfg ev d = Some d1 ->
          (magicFlag1 (rtc d) = MAGIC1 /\ magicFlag1 (rtc d1) <> MAGIC1)
          \/ (magicFlag2 (rtc d) = MAGIC2 /\ magicFlag2 (rtc d1) <> MAGIC2) ->
          exists now,
            ev = EvForceSleep now
            /\ FORCE_SLEEP cfg = true /\ sleepTimeout d < now).
Proof.
  intros cfg d Hsleep d'.
  assert (Honly : forall ev d1,
            step cfg ev d = Some d1 ->
            (magicFlag1 (rtc d) = MAGIC1 /\ magicFlag1 (rtc d1) <> MAGIC1)
            \/ (magicFlag2 (rtc d) = MAGIC2 /\ magicFlag2 (rtc d1) <> MAGIC2) ->
            exists now,
              ev = EvForceSleep now
              /\ FORCE_SLEEP cfg = true /\ sleepTimeout d < now).
  { intros ev d1. unfold step. destruct (asleep d).
    - intros H. injection H as <-. intros [[H1 N1]|[H2 N2]]; contradiction.
    - destruct ev as [cb|tNow env|now]; cbn [handle].
      + intros H. injection H as <-. destruct cb; cbn [callback].
        * cbn. intros [[H1 N1]|[H2 N2]]; contradiction.
        * unfold NetTxComplete. destruct (SLEEP_EN cfg); cbn;
            intros [[H1 N1]|[H2 N2]]; contradiction.
        * cbn [set_rtc rtc]. unfold NetSaveSessionInfo.
          destruct (Z.of_nat (length pExtraInfo) >? EXTRA_INFO_MEM_SIZE);
            cbn [magicFlag1 magicFlag2];
            intros [[H1 N1]|[H2 N2]]; congruence.
        * cbn [set_rtc rtc NetSaveSessionState magicFlag1 magicFlag2].
          intros [[H1 N1]|[H2 N2]]; congruence.
        * cbn. intros [[H1 N1]|[H2 N2]]; contradiction.
      + intros H. apply cSensor_loop_frame in H. destruct H as (Hr & _).
        rewrite Hr. intros [[H1 N1]|[H2 N2]]; contradiction.
      + intros H. injection H as <-. unfold loop_force_sleep.
        destruct (FORCE_SLEEP cfg) eqn:Ef; cbn [andb].
        * destruct (Z.gtb_spec now (sleepTimeout d)) as [Hgt|Hle].
          -- intros _. exists now. repeat split. lia.
          -- intros [[H1 N1]|[H2 N2]]; contradiction.
        * intros [[H1 N1]|[H2 N2]]; contradiction. }
  subst d'. unfold NetTxComplete. rewrite Hsleep.
  split; [|split; [|split]].
  - apply new_effects_app. cbn. rewrite <- app_assoc. reflexivity.
  - reflexivity.
  - intros ev. reflexivity.
  - do 6 (split; [reflexivity|]).
    split; [|split; [reflexivity | exact Honly]].
    intros now Hforce Hlate. unfold loop_force_sleep.
    rewrite Hforce.
    destruct (Z.gtb_spec now (sleepTimeout d)) as [_|Hle]; [|lia].
    cbn [andb]. destruct MAGIC_nonzero as [N1 N2].
    split; [|repeat split].
    + apply new_effects_app. cbn. rewrite <- app_assoc. reflexivity.
    + cbn. intros H. apply N1. symmetry. exact H.
    + cbn. intros H. apply N2. symmetry. exact H.
Qed.

(** C8, as the code has it.  With a tick rate for which 1800 s of ticks fit
    an [ostime_t]: [setup()] sets [sleepTimeout] to the tick count of
    [SLEEP_TIMEOUT_INITIAL] (1800 s), a fixed value that does not depend on
    the time at which [setup()] runs; [NetJoin] sets it to [os_getTime()]
    plus the tick count of [SLEEP_TIMEOUT_JOINED] (600 s), which is the
    smaller budget. *)
Theorem sleep_deadline :
  forall (millis now : Z) (d : Device),
    0 < OSTICKS_PER_SEC ->
    SLEEP_TIMEOUT_INITIAL * OSTICKS_PER_SEC < 2 ^ 31 ->
    sleepTimeout (stores (setup millis d)) = 1800 * OSTICKS_PER_SEC
    /\ sleepTimeout (NetJoin now d) = s32 (now + 600 * OSTICKS_PER_SEC)
    /\ (- 2 ^ 31 <= now -> now + 600 * OSTICKS_PER_SEC < 2 ^ 31 ->
          sleepTimeout (NetJoin now d) = now + 600 * OSTICKS_PER_SEC)
    /\ sec2osticks SLEEP_TIMEOUT_JOINED < sec2osticks SLEEP_TIMEOUT_INITIAL.
Proof.
  intros millis now d Hpos Hfit.
  unfold SLEEP_TIMEOUT_INITIAL in Hfit.
  assert (Hinit : sec2osticks SLEEP_TIMEOUT_INITIAL = 1800 * OSTICKS_PER_SEC).
  { unfold sec2osticks, SLEEP_TIMEOUT_INITIAL. apply s32_small. lia. }
  assert (Hjoin : sec2osticks SLEEP_TIMEOUT_JOINED = 600 * OSTICKS_PER_SEC).
  { unfold sec2osticks, SLEEP_TIMEOUT_JOINED. apply s32_small. lia. }
  split; [|split; [|split]].
  - cbn [stores setup uplinkRequest cSensor_setup set_mySensor
         set_sleepTimeout sleepTimeout mySensor].
    exact Hinit.
  - unfold NetJoin. cbn [set_sleepTimeout sleepTimeout]. rewrite Hjoin.
    reflexivity.
  - intros Hlo Hhi. unfold NetJoin. cbn [set_sleepTimeout sleepTimeout].
    rewrite Hjoin. apply s32_small. lia.
  - rewrite Hinit, Hjoin. lia.
Qed.

(** ** Determinism of the payload *)

(** C9.  For a build configuration, a value of [runtimeExpired] and sensor
    readings, encoding into [loraData] gives the same 36 bytes whatever was
    encoded into the buffer before: the bytes of the [write...] calls in
    their order, followed by the zero bytes of the reserve.  Encoding the
    same input a second time leaves the buffer as the first time left it.
    On every device reachable from [setup()], the buffer that [doUplink]
    hands to [SendBuffer] is that function of the configuration,
    [runtimeExpired] and the readings alone. *)
Theorem encodePayload_deterministic :
  forall (cfg : BuildConfig) (expired : bool) (r : Readings)
         (history : list (bool * Readings)),
    let loraData0 := repeat x00 PAYLOAD_SIZE in
    let buffer := encode_history cfg history loraData0 in
    encodePayload cfg expired r buffer
    = payload_bytes cfg expired r
      ++ repeat x00 (PAYLOAD_SIZE - frame_length cfg)
    /\ encodePayload cfg expired r buffer = encodePayload cfg expired r loraData0
    /\ encodePayload cfg expired r (encodePayload cfg expired r buffer)
       = encodePayload cfg expired r buffer
    /\ (forall (d : Device) (env : UplinkEnv),
          reachable cfg d ->
          m_fBusy (mySensor d) = false ->
          LMIC_busy (LMIC_opmode env) = false ->
          let frame :=
            payload_bytes cfg (runtimeExpired (rtc d)) (readings env)
            ++ repeat x00 (PAYLOAD_SIZE - frame_length cfg) in
          loraData (doUplink cfg env d) = frame
          /\ In (FxSendBuffer frame (SendBuffer_result env))
                (new_effects d (doUplink cfg env d))).
Proof.
  intros cfg expired r history loraData0 buffer.
  assert (Hlen0 : length loraData0 = PAYLOAD_SIZE) by apply repeat_length.
  assert (Hclean : forall b e' r',
             length b = PAYLOAD_SIZE ->
             skipn (frame_length cfg) b
             = repeat x00 (PAYLOAD_SIZE - frame_length cfg) ->
             encodePayload cfg e' r' b
             = payload_bytes cfg e' r'
               ++ repeat x00 (PAYLOAD_SIZE - frame_length cfg)).
  { intros b e' r' Hl Hs. rewrite encodePayload_spec by exact Hl.
    rewrite Hs. reflexivity. }
  assert (Hres0 : skipn (frame_length cfg) loraData0
                  = repeat x00 (PAYLOAD_SIZE - frame_length cfg))
    by apply skipn_repeat_sub.
  destruct (encode_history_reserve cfg history loraData0 Hlen0)
    as [Hlen Hres].
  fold buffer in Hlen, Hres. rewrite Hres0 in Hres.
  assert (H1 : encodePayload cfg expired r buffer
               = payload_bytes cfg expired r
                 ++ repeat x00 (PAYLOAD_SIZE - frame_length cfg))
    by (apply Hclean; assumption).
  split; [exact H1|]. split; [|split].
  - rewrite H1. symmetry. apply Hclean; assumption.
  - destruct (encodePayload_reserve cfg expired r buffer Hlen) as [Hl2 Hr2].
    rewrite (Hclean (encodePayload cfg expired r buffer) expired r Hl2)
      by congruence.
    symmetry. exact H1.
  - intros d env Hreach Hb Hl frame.
    destruct (reachable_reserve_clean cfg d Hreach) as [Hld Hrd].
    pose proof (Hclean (loraData d) (runtimeExpired (rtc d)) (readings env)
                       Hld Hrd) as Hframe.
    fold frame in Hframe.
    rewrite (doUplink_send cfg env d Hb Hl). cbn [loraData].
    split; [exact Hframe|].
    erewrite new_effects_app by (cbn [effects]; reflexivity).
    rewrite Hframe. right. left. reflexivity.
Qed.

End DeviceProperties.

(** * Further properties of the code *)

(** X2. The marker constants, with the comparison ['g' < 16] as the source
    writes it, are 0x6D006331 and 0x6D006332: the comparison contributes 0,
    the two constants differ, and neither is 0, the value the [FORCE_SLEEP]
    block stores to clear a marker. *)
Theorem magic_markers :
  c_lt (chr "g"%char) 16 = 0
  /\ MAGIC1 = 1828741937 /\ MAGIC2 = 1828741938
  /\ MAGIC1 <> MAGIC2 /\ MAGIC1 <> 0 /\ MAGIC2 <> 0.
Proof.
  split; [reflexivity|]. split; [reflexivity|]. split; [reflexivity|].
  rewrite MAGIC1_value, MAGIC2_value. repeat split; discriminate.
Qed.

(** X4. [NetSaveSessionState] always stores: afterwards the state marker is
    [MAGIC1], [NetGetSessionState] returns the state just saved, and the info
    marker, the saved info, the extra bytes and their length are as before. *)
Theorem NetSaveSessionState_stores :
  forall (m : RtcMemory) (State State_out : SessionState),
    let m' := NetSaveSessionState State m in
    magicFlag1 m' = MAGIC1
    /\ NetGetSessionState m' State_out = (true, State)
    /\ magicFlag2 m' = magicFlag2 m
    /\ rtcSavedSessionInfo m' = rtcSavedSessionInfo m
    /\ rtcSavedNExtraInfo m' = rtcSavedNExtraInfo m
    /\ rtcSavedExtraInfo m' = rtcSavedExtraInfo m
    /\ runtimeExpired m' = runtimeExpired m.
Proof.
  intros m State State_out m'. subst m'.
  split; [reflexivity|]. split; [|repeat split].
  unfold NetGetSessionState, NetSaveSessionState.
  cbn [magicFlag1 rtcSavedSessionState]. rewrite Z.eqb_refl. reflexivity.
Qed.

Section FurtherProperties.

Context {P : Platform}.

Lemma run_asleep (cfg : BuildConfig) (evs : list Event) (d : Device) :
  asleep d = true -> run cfg evs d = Some d.
Proof.
  intros Ha. induction evs as [|ev evs IH]; simpl.
  - reflexivity.
  - unfold step. rewrite Ha. exact IH.
Qed.

(** X1. Under every build configuration the encoder stores at most 33
    bytes, so no write leaves the 36-byte payload buffer: the buffer keeps
    its size, starts with the bytes of the [write...] calls and keeps its
    own bytes behind them. *)
Theorem payload_within_buffer :
  forall (cfg : BuildConfig) (expired : bool) (r : Readings)
         (buffer : list byte),
    length buffer = PAYLOAD_SIZE ->
    (frame_length cfg <= 33)%nat
    /\ length (payload_bytes cfg expired r) = frame_length cfg
    /\ length (encodePayload cfg expired r buffer) = PAYLOAD_SIZE
    /\ firstn (frame_length cfg) (encodePayload cfg expired r buffer)
       = payload_bytes cfg expired r
    /\ skipn (frame_length cfg) (encodePayload cfg expired r buffer)
       = skipn (frame_length cfg) buffer.
Proof.
  intros cfg expired r buffer Hlen.
  destruct (encode_fits cfg) as [H33 _].
  destruct (encodePayload_reserve cfg expired r buffer Hlen) as [Hl Hs].
  pose proof (payload_bytes_length cfg expired r) as Hpl.
  split; [exact H33|]. split; [exact Hpl|]. split; [exact Hl|].
  split; [|exact Hs].
  rewrite encodePayload_spec by exact Hlen.
  rewrite <- Hpl, firstn_app, Nat.sub_diag, firstn_all. simpl.
  apply app_nil_r.
Qed.

(** X3. Past the deadline the [FORCE_SLEEP] block shuts down and enters
    deep sleep once: whatever events follow, the device and its log stay as
    that block left them.  Up to the deadline the block does nothing. *)
Theorem deadline_forces_shutdown :
  forall (cfg : BuildConfig) (now : Z) (d : Device) (evs : list Event),
    FORCE_SLEEP cfg = true ->
    (sleepTimeout d < now ->
       let d' := loop_force_sleep cfg now d in
       new_effects d d' = [FxShutdown; FxDeepSleep 360000000]
       /\ asleep d' = true
       /\ runtimeExpired (rtc d') = true
       /\ run cfg evs d' = Some d')
    /\ (now <= sleepTimeout d -> loop_force_sleep cfg now d = d).
Proof.
  intros cfg now d evs Hforce. unfold loop_force_sleep. rewrite Hforce.
  split.
  - intros Hlate.
    destruct (Z.gtb_spec now (sleepTimeout d)) as [_|Hle]; [|lia].
    cbn [andb].
    split; [|split; [reflexivity|split; [reflexivity|]]].
    + apply new_effects_app. cbn. rewrite <- app_assoc. reflexivity.
    + apply run_asleep. reflexivity.
  - intros Hearly.
    destruct (Z.gtb_spec now (sleepTimeout d)) as [Hgt|_]; [lia|].
    reflexivity.
Qed.

(** X5. Sentinel substitution: when [getTemperature()] gave
    [DEVICE_DISCONNECTED_C], the encoder leaves the buffer as it does for a
    reading of -30.0, byte for byte, and [doUplink] leaves the device and
    its log as it does for that reading.  In a build with the OneWire probe
    the two bytes of the water temperature, which precede the three bytes of
    the indoor sensor at the end of the frame, are those of -30.0. *)
Theorem sentinel_substitution :
  forall (cfg : BuildConfig) (expired : bool) (r : Readings)
         (buffer : list byte),
    float_ne (getTemperature r) DEVICE_DISCONNECTED_C = false ->
    length buffer = PAYLOAD_SIZE ->
    let r' := with_getTemperature (float_of_int (-30)) r in
    let slot :=
      (frame_length cfg - 2 - (if MITHERMOMETER_EN cfg then 3 else 0))%nat in
    encodePayload cfg expired r buffer = encodePayload cfg expired r' buffer
    /\ (forall (opmode : Z) (accepted : bool) (d : Device),
          doUplink cfg (mkUplinkEnv opmode r accepted) d
          = doUplink cfg (mkUplinkEnv opmode r' accepted) d)
    /\ (ONEWIRE_EN cfg = true ->
          firstn 2 (skipn slot (encodePayload cfg expired r buffer))
          = pair_bytes (bytesTemperature (float_of_int (-30)))).
Proof.
  intros cfg expired r buffer Hdis Hlen r' slot.
  assert (Hsame : forall e b,
            encodePayload cfg e r b = encodePayload cfg e r' b).
  { intros e b. rewrite !encodePayload_put. f_equal. f_equal.
    unfold payload_bytes. subst r'. unfold with_getTemperature.
    cbn [getTemperature weatherSensor miThermometer_data0 getVoltage
         getVoltage_adc3].
    rewrite Hdis.
    destruct (float_ne (float_of_int (-30)) DEVICE_DISCONNECTED_C);
      reflexivity. }
  split; [apply Hsame|]. split.
  - intros opmode accepted d. unfold doUplink.
    cbn [LMIC_opmode readings SendBuffer_result]. rewrite Hsame. reflexivity.
  - intros Hwire. rewrite encodePayload_spec by exact Hlen.
    subst slot. unfold payload_bytes, frame_length. cbv zeta.
    rewrite Hdis, Hwire.
    destruct (SENSORID_EN cfg), (ENCODE_AS_FLOAT cfg), (ADC_EN cfg),
      (PIN_ADC3_IN cfg), (MITHERMOMETER_EN cfg);
      repeat match goal with
             | |- context [pair_bytes ?p] => destruct p; cbn [pair_bytes]
             | |- context [quad_bytes ?q] =>
                 destruct q as [[[? ?] ?] ?]; cbn [quad_bytes]
             end;
      reflexivity.
Qed.

End FurtherProperties.

(** * The properties on concrete inputs *)

(** A send that [SendBuffer] rejects, on a tick that is due by the time
    elapsed: the one event is [mySensor.loop()], no completion function
    runs, and the log of [doUplink] ends with the store of [false] to
    [m_fBusy]. *)
Lemma rejected_send_clears_busy :
  let d := set_mySensor (mkSensor false false 360000 500) demo_device in
  match step (sketch_config false) (EvSensorLoop 360500 (env_idle false)) d
  with
  | Some d' =>
      effects d = []
      /\ effects d'
         = [FxBusy true; FxSendBuffer (loraData d') false; FxBusy false]
      /\ m_fBusy (mySensor d') = false
  | None => False
  end.
Proof. vm_compute. repeat split. Qed.

(** A trigger while the LMIC is busy, and one while an uplink is in flight:
    the device is returned as it was. *)
Example doUplink_lmic_busy :
  doUplink (sketch_config false) env_lmic_busy demo_device = demo_device.
Proof. reflexivity. Qed.

Example doUplink_second_trigger :
  let d1 := doUplink (sketch_config false) (env_idle true) demo_device in
  m_fBusy (mySensor d1) = true
  /\ doUplink (sketch_config false) (env_idle true) d1 = d1.
Proof. split; reflexivity. Qed.

(** The frame of the concrete readings under the sketch's configuration with
    fixed-point wind values: 23 bytes, then the 13 bytes of the reserve. *)
Example encodePayload_demo :
  encodePayload (sketch_config false) false demo_readings
                (repeat x00 PAYLOAD_SIZE)
  = [x07; x00; xd5; x37; x33; x00; x18; x00; x08; x07; xd8; x04; x00; x00;
     xe4; x0c; x04; x10; x00; xb9; x00; xdd; x2f]
    ++ repeat x00 13.
Proof. reflexivity. Qed.

(** Period 360000 ms, reference 500 ms, evaluation at 900500 ms: one uplink,
    and the reference moves to 720500 ms. *)
Example cSensor_loop_catch_up :
  match cSensor_loop (sketch_config false) 900500 (env_idle true) demo_device with
  | Some d' =>
      m_tReference (mySensor d') = 720500
      /\ m_fUplinkRequest (mySensor d') = false
      /\ length (filter is_send (effects d')) = 1%nat
  | None => False
  end.
Proof. vm_compute. repeat split. Qed.

Lemma scheduler_catch_up_witness :
  0 < m_uplinkPeriodMs (mySensor demo_device)
  /\ loop_schedule 900500 (mySensor demo_device)
     = Some (mkSensor true false 360000 720500).
Proof.
  split; [reflexivity|].
  pose proof (scheduler_catch_up (P := esp32) (sketch_config false) 900500
                (env_idle true) demo_device) as H.
  cbv zeta in H. destruct H as (_ & _ & H); [reflexivity|].
  destruct (H eq_refl eq_refl) as [Hs _]. exact Hs.
Defined.

Lemma doUplink_busy_flag_witness :
  m_fBusy (mySensor demo_device) = false
  /\ LMIC_busy (P := esp32) (LMIC_opmode (env_idle false)) = false
  /\ m_fBusy (mySensor (doUplink (sketch_config false) (env_idle false)
                                 demo_device)) = false.
Proof.
  split; [reflexivity|]. split; [reflexivity|].
  pose proof (doUplink_busy_flag (P := esp32) (sketch_config false)
                (env_idle false) demo_device eq_refl eq_refl) as H.
  cbv zeta in H. destruct H as (_ & H & _).
  destruct (H eq_refl) as (_ & Hclear & _). exact Hclear.
Defined.

(** A completed transmission on a device that woke with a saved session and
    the expired flag set: after [NetTxComplete] both markers still match and
    the expired flag is still set. *)
Lemma NetTxComplete_keeps_markers :
  let d :=
    stores (setup (P := esp32) 500
                  (boot (set_runtimeExpired true rtc_saved))) in
  let d' := NetTxComplete (sketch_config false) d in
  effects d' = [FxShutdown; FxDeepSleep 360000000]
  /\ magicFlag1 (rtc d') = MAGIC1
  /\ magicFlag2 (rtc d') = MAGIC2
  /\ runtimeExpired (rtc d') = true.
Proof. repeat split. Qed.

Lemma NetTxComplete_powers_down_witness :
  SLEEP_EN (sketch_config false) = true
  /\ new_effects demo_device (NetTxComplete (sketch_config false) demo_device)
     = [FxShutdown; FxDeepSleep 360000000]
  /\ magicFlag1 (rtc (NetTxComplete (sketch_config false) demo_device))
     = MAGIC1.
Proof.
  split; [reflexivity|].
  pose proof (NetTxComplete_powers_down (P := esp32) (sketch_config false)
                demo_device eq_refl) as H.
  cbv zeta in H. destruct H as (H1 & _ & _ & H2 & _).
  split; [exact H1 | exact H2].
Defined.

(** [setup()] 500 ms after the reset, at 62500 ticks per second: [os_getTime()]
    is 31250 there, and the deadline is the tick count of 1800 s, not that
    plus 31250. *)
Lemma setup_deadline_is_absolute :
  sleepTimeout (stores (setup (P := esp32) 500 (boot rtc_saved)))
  = 112500000
  /\ s32 (31250 + sec2osticks (P := esp32) SLEEP_TIMEOUT_INITIAL) = 112531250
  /\ sleepTimeout (stores (setup (P := esp32) 500 (boot rtc_saved)))
     <> s32 (31250 + sec2osticks (P := esp32) SLEEP_TIMEOUT_INITIAL).
Proof. repeat split. vm_compute. discriminate. Qed.

Lemma sleep_deadline_witness :
  0 < OSTICKS_PER_SEC (Platform := esp32)
  /\ SLEEP_TIMEOUT_INITIAL * OSTICKS_PER_SEC (Platform := esp32) < 2 ^ 31
  /\ sleepTimeout (stores (setup (P := esp32) 500 (boot rtc_saved)))
     = 112500000
  /\ sleepTimeout (NetJoin (P := esp32) 125000 demo_device) = 37625000.
Proof.
  split; [reflexivity|]. split; [reflexivity|].
  pose proof (sleep_deadline (P := esp32) 500 125000) as H.
  split.
  - destruct (H (boot rtc_saved) eq_refl eq_refl) as (H1 & _). exact H1.
  - destruct (H demo_device eq_refl eq_refl) as (_ & _ & H3 & _).
    apply H3.
    + vm_compute. discriminate.
    + reflexivity.
Defined.

Lemma payload_within_buffer_witness :
  length (repeat x00 PAYLOAD_SIZE) = PAYLOAD_SIZE
  /\ firstn (frame_length (sketch_config false))
            (encodePayload (sketch_config false) false demo_readings
                           (repeat x00 PAYLOAD_SIZE))
     = payload_bytes (sketch_config false) false demo_readings.
Proof.
  split; [reflexivity|].
  destruct (payload_within_buffer (P := esp32) (sketch_config false) false
              demo_readings (repeat x00 PAYLOAD_SIZE) eq_refl)
    as (_ & _ & _ & H & _).
  exact H.
Defined.

Lemma deadline_forces_shutdown_witness :
  FORCE_SLEEP (sketch_config false) = true
  /\ loop_force_sleep (sketch_config false) 112500000 demo_device = demo_device
  /\ asleep (loop_force_sleep (sketch_config false) 112500001 demo_device)
     = true.
Proof.
  split; [reflexivity|].
  destruct (deadline_forces_shutdown (P := esp32) (sketch_config false)
              112500000 demo_device [] eq_refl) as [_ Hearly].
  destruct (deadline_forces_shutdown (P := esp32) (sketch_config false)
              112500001 demo_device [] eq_refl) as [Hlate _].
  split.
  - apply Hearly. vm_compute. discriminate.
  - destruct Hlate as (_ & Ha & _); [reflexivity | exact Ha].
Defined.

(** Readings with the OneWire probe disconnected: the frame of the sketch's
    configuration holds the bytes of -30.0 at offsets 18 and 19. *)
Lemma sentinel_substitution_witness :
  float_ne (Platform := esp32) (-12700) (DEVICE_DISCONNECTED_C (Platform := esp32))
  = false
  /\ length (repeat x00 PAYLOAD_SIZE) = PAYLOAD_SIZE
  /\ encodePayload (P := esp32) (sketch_config false) false
       (with_getTemperature (P := esp32) (-12700) demo_readings)
       (repeat x00 PAYLOAD_SIZE)
     = encodePayload (P := esp32) (sketch_config false) false
         (with_getTemperature (P := esp32) (-3000) demo_readings)
         (repeat x00 PAYLOAD_SIZE)
  /\ firstn 2 (skipn 18
                 (encodePayload (P := esp32) (sketch_config false) false
                    (with_getTemperature (P := esp32) (-12700) demo_readings)
                    (repeat x00 PAYLOAD_SIZE)))
     = pair_bytes (bytesTemperature (Platform := esp32) (-3000)).
Proof.
  split; [reflexivity|]. split; [reflexivity|].
  pose proof (sentinel_substitution (P := esp32) (sketch_config false) false
                (with_getTemperature (P := esp32) (-12700) demo_readings)
                (repeat x00 PAYLOAD_SIZE) eq_refl eq_refl) as H.
  cbv zeta in H. destruct H as (H1 & _ & H3).
  split; [exact H1 | exact (H3 eq_refl)].
Defined.

(** * The session store over several saves *)

Lemma memcpy_whole (dst src : list byte) :
  (length dst <= length src)%nat ->
  memcpy dst src (length dst) = firstn (length dst) src.
Proof.
  intros Hle. unfold memcpy. rewrite skipn_all. apply app_nil_r.
Qed.

(** X6. The two save operations commute: saving the state and then the
    info leaves the RTC memory as saving the info and then the state does,
    whether or not the blob is within capacity. *)
Theorem save_order_commutes :
  forall (m : RtcMemory) (State : SessionState) (Info : SessionInfo)
         (pExtraInfo : list byte),
    NetSaveSessionInfo Info pExtraInfo (NetSaveSessionState State m)
    = NetSaveSessionState State (NetSaveSessionInfo Info pExtraInfo m).
Proof.
  intros m State Info extra. unfold NetSaveSessionInfo.
  destruct (Z.of_nat (length extra) >? EXTRA_INFO_MEM_SIZE); reflexivity.
Qed.

(** X7. A shorter blob saved over a longer one: the info, the recorded
    length and the first bytes are those of the second save, but the bytes
    of [rtcSavedExtraInfo] between the new and the old length still hold the
    end of the first blob; the array is not cleared. *)
Theorem save_info_overwrite :
  forall (m : RtcMemory) (Info1 Info2 : SessionInfo) (e1 e2 : list byte),
    Z.of_nat (length e1) <= EXTRA_INFO_MEM_SIZE ->
    (length e2 <= length e1)%nat ->
    let m2 := NetSaveSessionInfo Info2 e2 (NetSaveSessionInfo Info1 e1 m) in
    rtcSavedSessionInfo m2 = Info2
    /\ rtcSavedNExtraInfo m2 = Z.of_nat (length e2)
    /\ firstn (length e2) (rtcSavedExtraInfo m2) = e2
    /\ firstn (length e1 - length e2) (skipn (length e2) (rtcSavedExtraInfo m2))
       = skipn (length e2) e1
    /\ skipn (length e1) (rtcSavedExtraInfo m2)
       = skipn (length e1) (rtcSavedExtraInfo m).
Proof.
  intros m Info1 Info2 e1 e2 H1 H21 m2. subst m2.
  assert (H2 : Z.of_nat (length e2) <= EXTRA_INFO_MEM_SIZE) by lia.
  rewrite (NetSaveSessionInfo_within Info2 e2 _ H2).
  rewrite (NetSaveSessionInfo_within Info1 e1 _ H1).
  cbn [rtcSavedSessionInfo rtcSavedNExtraInfo rtcSavedExtraInfo].
  split; [reflexivity|]. split; [reflexivity|].
  split; [apply memcpy_prefix|].
  assert (Hskip : skipn (length e2)
                    (memcpy (memcpy (rtcSavedExtraInfo m) e1 (length e1)) e2
                            (length e2))
                  = skipn (length e2) e1
                    ++ skipn (length e1) (rtcSavedExtraInfo m)).
  { rewrite memcpy_suffix. unfold memcpy. rewrite firstn_all, skipn_app.
    replace (length e2 - length e1)%nat with 0%nat by lia. reflexivity. }
  split.
  - rewrite Hskip, firstn_app, length_skipn.
    rewrite Nat.sub_diag. simpl. rewrite app_nil_r.
    apply firstn_all2. rewrite length_skipn. lia.
  - replace (length e1) with ((length e1 - length e2) + length e2)%nat
      at 1 by lia.
    rewrite <- skipn_skipn, Hskip, skipn_app, length_skipn.
    rewrite Nat.sub_diag. simpl.
    rewrite skipn_all2 by (rewrite length_skipn; lia). reflexivity.
Qed.

(** X8. [rtcSavedExtraInfo] keeps its 64 bytes: whatever blob
    [NetSaveSessionInfo] is given, within capacity or not, the array has the
    size it had, so no save writes past its end. *)
Theorem extra_info_array_size :
  forall (m : RtcMemory) (Info : SessionInfo) (pExtraInfo : list byte),
    Z.of_nat (length (rtcSavedExtraInfo m)) = EXTRA_INFO_MEM_SIZE ->
    length (rtcSavedExtraInfo (NetSaveSessionInfo Info pExtraInfo m))
    = length (rtcSavedExtraInfo m).
Proof.
  intros m Info extra Hsize. unfold NetSaveSessionInfo.
  destruct (Z.gtb_spec (Z.of_nat (length extra)) EXTRA_INFO_MEM_SIZE)
    as [Hgt|Hle].
  - reflexivity.
  - cbn [rtcSavedExtraInfo]. apply memcpy_length. lia.
Qed.

(** X9. [GetOtaaProvisioningInfo] always reports success, and fills each
    array with the leading bytes of the configured credential, as many as
    the array holds; with credentials of the arrays' sizes the result is the
    credentials, whatever the caller's object held before. *)
Theorem GetOtaaProvisioningInfo_fills :
  forall (sec : Secrets) (pInfo : OtaaProvisioningInfo),
    (length (otaa_DevEUI pInfo) <= length (deveui sec))%nat ->
    (length (otaa_AppEUI pInfo) <= length (appeui sec))%nat ->
    (length (otaa_AppKey pInfo) <= length (appkey sec))%nat ->
    GetOtaaProvisioningInfo sec pInfo
    = (true,
       mkOtaaProvisioningInfo
         (firstn (length (otaa_AppKey pInfo)) (appkey sec))
         (firstn (length (otaa_DevEUI pInfo)) (deveui sec))
         (firstn (length (otaa_AppEUI pInfo)) (appeui sec)))
    /\ (length (otaa_DevEUI pInfo) = length (deveui sec) ->
        length (otaa_AppEUI pInfo) = length (appeui sec) ->
        length (otaa_AppKey pInfo) = length (appkey sec) ->
        GetOtaaProvisioningInfo sec pInfo
        = (true, mkOtaaProvisioningInfo (appkey sec) (deveui sec) (appeui sec))).
Proof.
  intros sec pInfo Hd Ha Hk.
  assert (H : GetOtaaProvisioningInfo sec pInfo
              = (true,
                 mkOtaaProvisioningInfo
                   (firstn (length (otaa_AppKey pInfo)) (appkey sec))
                   (firstn (length (otaa_DevEUI pInfo)) (deveui sec))
                   (firstn (length (otaa_AppEUI pInfo)) (appeui sec)))).
  { unfold GetOtaaProvisioningInfo. cbv zeta.
    rewrite !memcpy_whole by assumption. reflexivity. }
  split; [exact H|].
  intros Ed Ea Ek. rewrite H, Ed, Ea, Ek, !firstn_all. reflexivity.
Qed.

(** * The scheduler and the controller over a wake cycle *)

Section CycleProperties.

Context {P : Platform}.


(** [doUplink] stores to [m_fBusy], [loraData] and the log only. *)
(** The residue of the elapsed time once the reference has advanced. *)
Lemma residual_elapsed (tNow ref period : Z) :
  0 < period ->
  period <= u32 (tNow - ref) ->
  u32 (tNow - u32 (ref + u32 (tNow - ref) / period * period))
  = u32 (tNow - ref) mod period.
Proof.
  intros Hpos Hdue. unfold u32 in *.
  set (e := (tNow - ref) mod 2 ^ 32) in *.
  assert (He : 0 <= e < 2 ^ 32) by (apply Z.mod_pos_bound; lia).
  rewrite Zminus_mod_idemp_r.
  replace (tNow - (ref + e / period * period))
    with ((tNow - ref) - e / period * period) by ring.
  rewrite <- Zminus_mod_idemp_l. fold e.
  replace (e - e / period * period) with (e mod period)
    by (rewrite (Z.mod_eq e period) by lia; ring).
  pose proof (Z.mod_pos_bound e period Hpos).
  apply Z.mod_small. lia.
Qed.

(** X10. No bursting: after a tick that was due, the time elapsed since the
    advanced reference is the remainder of the elapsed time by the period,
    so less than one period however long the stall was; the reference is a
    [uint32_t] value again, and a second evaluation at the same [millis()]
    changes nothing and sends nothing. *)
Theorem scheduler_no_burst :
  forall (cfg : BuildConfig) (tNow : Z) (env : UplinkEnv) (d d' : Device),
    let s := mySensor d in
    let period := m_uplinkPeriodMs s in
    let elapsed := u32 (tNow - m_tReference s) in
    0 < period ->
    period <= elapsed ->
    cSensor_loop cfg tNow env d = Some d' ->
    u32 (tNow - m_tReference (mySensor d')) = elapsed mod period
    /\ u32 (tNow - m_tReference (mySensor d')) < period
    /\ 0 <= m_tReference (mySensor d') < 2 ^ 32
    /\ cSensor_loop cfg tNow env d' = Some d'.
Proof.
  intros cfg tNow env d d' s period elapsed Hpos Hdue Hloop.
  pose proof (loop_schedule_due tNow s Hpos Hdue) as Hs.
  unfold cSensor_loop in Hloop. fold s in Hloop. rewrite Hs in Hloop.
  cbn [m_fUplinkRequest m_fBusy m_uplinkPeriodMs m_tReference] in Hloop.
  match type of Hloop with
  | Some (doUplink _ _ ?d1) = _ =>
      destruct (doUplink_sensor cfg env d1) as (Hreq & Hper & Href)
  end.
  injection Hloop as Hd'. rewrite Hd' in Hreq, Hper, Href.
  cbn [set_mySensor mySensor m_fUplinkRequest m_uplinkPeriodMs m_tReference]
    in Hreq, Hper, Href.
  fold elapsed in Href. fold period in Hper, Href.
  set (r' := u32 (m_tReference s + elapsed / period * period)) in *.
  assert (Hres : u32 (tNow - r') = elapsed mod period).
  { subst r'. apply residual_elapsed; assumption. }
  pose proof (Z.mod_pos_bound elapsed period Hpos) as Hbound.
  rewrite Href. split; [exact Hres|]. split; [rewrite Hres; lia|].
  split; [subst r'; unfold u32; apply Z.mod_pos_bound; lia|].
  unfold cSensor_loop.
  rewrite loop_schedule_not_due by (rewrite Href, Hper, Hres; lia).
  rewrite Hreq, set_mySensor_same. reflexivity.
Qed.

Lemma setup_device (millis : Z) (m : RtcMemory) :
  stores (setup millis (boot m)) =
  mkDevice m (mkSensor true false (6 * 60 * 1000) millis)
           (repeat x00 PAYLOAD_SIZE) (sec2osticks SLEEP_TIMEOUT_INITIAL)
           false [].
Proof. reflexivity. Qed.



Lemma callback_frame (cfg : BuildConfig) (cb : Callback) (d : Device) :
  m_uplinkPeriodMs (mySensor (callback cfg cb d)) = m_uplinkPeriodMs (mySensor d)
  /\ loraData (callback cfg cb d) = loraData d.
Proof.
  destruct cb; cbn [callback]; try (split; reflexivity).
  unfold NetTxComplete. destruct (SLEEP_EN cfg); split; reflexivity.
Qed.

Lemma loop_force_sleep_frame (cfg : BuildConfig) (now : Z) (d : Device) :
  mySensor (loop_force_sleep cfg now d) = mySensor d
  /\ loraData (loop_force_sleep cfg now d) = loraData d
  /\ sleepTimeout (loop_force_sleep cfg now d) = sleepTimeout d.
Proof.
  unfold loop_force_sleep.
  destruct (FORCE_SLEEP cfg && (now >? sleepTimeout d)); repeat split.
Qed.

Lemma step_period (cfg : BuildConfig) (ev : Event) (d d' : Device) :
  step cfg ev d = Some d' ->
  m_uplinkPeriodMs (mySensor d') = m_uplinkPeriodMs (mySensor d).
Proof.
  unfold step. destruct (asleep d).
  - intros H. injection H as <-. reflexivity.
  - destruct ev as [cb|tNow env|now]; cbn [handle].
    + intros H. injection H as <-. apply callback_frame.
    + intros H. apply cSensor_loop_frame in H. apply H.
    + intros H. injection H as <-.
      destruct (loop_force_sleep_frame cfg now d) as [Hs _].
      rewrite Hs. reflexivity.
Qed.

Lemma run_app (cfg : BuildConfig) (evs1 evs2 : list Event) (d : Device) :
  run cfg (evs1 ++ evs2) d =
  match run cfg evs1 d with
  | Some d1 => run cfg evs2 d1
  | None => None
  end.
Proof.
  revert d. induction evs1 as [|ev evs1 IH]; intros d; simpl.
  - reflexivity.
  - destruct (step cfg ev d) as [d1|]; [apply IH | reflexivity].
Qed.

Lemma reachable_run (cfg : BuildConfig) (evs : list Event) (d d' : Device) :
  reachable cfg d -> run cfg evs d = Some d' -> reachable cfg d'.
Proof.
  intros (m & millis & evs0 & H0) Hrun.
  exists m, millis, (evs0 ++ evs). rewrite run_app, H0. exact Hrun.
Qed.

(** X12. On every device reachable from [setup()] the uplink period is the
    360000 ms that [setup()] installed, so the division in [cSensor::loop]
    never has a zero divisor: every event is handled. *)
Theorem reachable_period :
  forall (cfg : BuildConfig) (d : Device),
    reachable cfg d ->
    m_uplinkPeriodMs (mySensor d) = 360000
    /\ forall ev : Event, exists d', step cfg ev d = Some d'.
Proof.
  intros cfg d Hreach.
  assert (Hper : m_uplinkPeriodMs (mySensor d) = 360000).
  { destruct Hreach as (m & millis & evs & Hrun).
    apply (run_invariant cfg
             (fun d0 => m_uplinkPeriodMs (mySensor d0) = 360000)) with
      (evs := evs) (d := stores (setup millis (boot m))); [|reflexivity|exact Hrun].
    intros ev d0 d1 H0 Hstep. rewrite (step_period cfg ev d0 d1 Hstep).
    exact H0. }
  split; [exact Hper|].
  intros ev. unfold step. destruct (asleep d); [eexists; reflexivity|].
  destruct ev as [cb|tNow env|now]; cbn [handle]; try (eexists; reflexivity).
  unfold cSensor_loop, loop_schedule. rewrite Hper.
  destruct (u32 (tNow - m_tReference (mySensor d)) >=? 360000).
  - change (360000 =? 0) with false. cbv iota. cbn [m_fUplinkRequest].
    eexists. reflexivity.
  - destruct (m_fUplinkRequest (mySensor d)); eexists; reflexivity.
Qed.

Lemma step_rtc (cfg : BuildConfig) (ev : Event) (d d' : Device) :
  step cfg ev d = Some d' -> writes_rtc ev = false -> rtc d' = rtc d.
Proof.
  unfold step. destruct (asleep d).
  - intros H _. injection H as <-. reflexivity.
  - destruct ev as [cb|tNow env|now]; cbn [handle writes_rtc].
    + intros H Hw. injection H as <-.
      destruct cb; cbn [callback]; try discriminate Hw; try reflexivity.
      unfold NetTxComplete. destruct (SLEEP_EN cfg); reflexivity.
    + intros H _. apply cSensor_loop_frame in H. apply H.
    + intros _ Hw. discriminate Hw.
Qed.

Lemma step_sleepTimeout (cfg : BuildConfig) (ev : Event) (d d' : Device) :
  step cfg ev d = Some d' ->
  (forall now, ev <> EvCallback (CbNetJoin now)) ->
  sleepTimeout d' = sleepTimeout d.
Proof.
  unfold step. destruct (asleep d).
  - intros H _. injection H as <-. reflexivity.
  - destruct ev as [cb|tNow env|now]; cbn [handle].
    + intros H Hn. injection H as <-.
      destruct cb as [now| | | |]; cbn [callback]; try reflexivity.
      * exfalso. apply (Hn now). reflexivity.
      * unfold NetTxComplete. destruct (SLEEP_EN cfg); reflexivity.
    + intros H _. apply cSensor_loop_frame in H. apply H.
    + intros H _. injection H as <-. apply loop_force_sleep_frame.
Qed.

(** X13. Who writes what: an event that is neither of the two save
    callbacks nor the [FORCE_SLEEP] check leaves the whole RTC memory as it
    was (the sensor loop and [doUplink], [NetJoin], [NetTxComplete] and the
    completion function never store to it), and an event other than
    [NetJoin] leaves the sleep deadline as it was. *)
Theorem rtc_writers :
  forall (cfg : BuildConfig) (ev : Event) (d d' : Device),
    step cfg ev d = Some d' ->
    (writes_rtc ev = false -> rtc d' = rtc d)
    /\ ((forall now, ev <> EvCallback (CbNetJoin now)) ->
        sleepTimeout d' = sleepTimeout d).
Proof.
  intros cfg ev d d' Hstep. split.
  - apply (step_rtc cfg ev d d' Hstep).
  - apply (step_sleepTimeout cfg ev d d' Hstep).
Qed.

Lemma NetSaveSessionInfo_expired (Info : SessionInfo) (extra : list byte)
    (m : RtcMemory) :
  runtimeExpired (NetSaveSessionInfo Info extra m) = runtimeExpired m.
Proof.
  unfold NetSaveSessionInfo.
  destruct (Z.of_nat (length extra) >? EXTRA_INFO_MEM_SIZE); reflexivity.
Qed.

Lemma step_expired (cfg : BuildConfig) (ev : Event) (d d' : Device) :
  step cfg ev d = Some d' ->
  runtimeExpired (rtc d) = true -> runtimeExpired (rtc d') = true.
Proof.
  intros Hstep Hexp.
  destruct (writes_rtc ev) eqn:Ew.
  - unfold step in Hstep. destruct (asleep d).
    + injection Hstep as <-. exact Hexp.
    + destruct ev as [cb|tNow env|now]; cbn [handle] in Hstep;
        try discriminate Ew; injection Hstep as <-.
      * destruct cb; try discriminate Ew; cbn [callback set_rtc rtc].
        -- rewrite NetSaveSessionInfo_expired. exact Hexp.
        -- exact Hexp.
      * unfold loop_force_sleep.
        destruct (FORCE_SLEEP cfg && (now >? sleepTimeout d));
          [reflexivity | exact Hexp].
  - rewrite (step_rtc cfg ev d d' Hstep Ew). exact Hexp.
Qed.

(** X14. The expired flag is never taken back: once [runtimeExpired] is
    set, it stays set through every event and through every later wake
    cycle, and every frame handed to [SendBuffer] from then on is encoded
    with the expired bit set. *)
Theorem runtimeExpired_sticky :
  forall (cfg : BuildConfig) (evs : list Event) (d d' : Device),
    reachable cfg d ->
    runtimeExpired (rtc d) = true ->
    run cfg evs d = Some d' ->
    runtimeExpired (rtc d') = true
    /\ (forall millis, runtimeExpired (rtc (wake millis d')) = true)
    /\ (forall env : UplinkEnv,
          m_fBusy (mySensor d') = false ->
          LMIC_busy (LMIC_opmode env) = false ->
          loraData (doUplink cfg env d')
          = payload_bytes cfg true (readings env)
            ++ repeat x00 (PAYLOAD_SIZE - frame_length cfg)).
Proof.
  intros cfg evs d d' Hreach Hexp Hrun.
  assert (Hexp' : runtimeExpired (rtc d') = true).
  { apply (run_invariant cfg (fun d0 => runtimeExpired (rtc d0) = true))
      with (evs := evs) (d := d); [|exact Hexp|exact Hrun].
    intros ev d0 d1 H0 Hstep. exact (step_expired cfg ev d0 d1 Hstep H0). }
  split; [exact Hexp'|]. split; [intros millis; exact Hexp'|].
  intros env Hb Hl.
  destruct (reachable_reserve_clean cfg d'
              (reachable_run cfg evs d d' Hreach Hrun)) as [Hlen Hres].
  rewrite (doUplink_send cfg env d' Hb Hl). cbn [loraData].
  rewrite encodePayload_spec by exact Hlen.
  rewrite Hres, Hexp'. reflexivity.
Qed.

(** X15. The session over a sleep.  After the [FORCE_SLEEP] block fired,
    the next wake cycle finds no session, whatever had been saved:
    [NetGetSessionState] and [GetAbpProvisioningInfo] both report failure.
    After [NetTxComplete], the next wake cycle reads the session as the
    cycle before it did. *)
Theorem session_across_sleep :
  forall (cfg : BuildConfig) (now millis : Z) (d : Device)
         (State state : SessionState) (pAbpInfo : AbpProvisioningInfo),
    (FORCE_SLEEP cfg = true -> sleepTimeout d < now ->
       let d2 := wake millis (loop_force_sleep cfg now d) in
       NetGetSessionState (rtc d2) State = (false, State)
       /\ GetAbpProvisioningInfo (rtc d2) state pAbpInfo = (false, pAbpInfo))
    /\ (let d3 := wake millis (NetTxComplete cfg d) in
        NetGetSessionState (rtc d3) State = NetGetSessionState (rtc d) State
        /\ GetAbpProvisioningInfo (rtc d3) state pAbpInfo
           = GetAbpProvisioningInfo (rtc d) state pAbpInfo).
Proof.
  intros cfg now millis d State state pAbpInfo. split.
  - intros Hforce Hlate d2. subst d2. unfold wake, loop_force_sleep.
    rewrite Hforce.
    destruct (Z.gtb_spec now (sleepTimeout d)) as [_|Hle]; [|lia].
    cbn [andb]. rewrite setup_device. cbn [rtc].
    destruct MAGIC_nonzero as [N1 _].
    split.
    + unfold NetGetSessionState. cbn.
      destruct (Z.eqb_spec 0 MAGIC1) as [E|_]; [|reflexivity].
      exfalso. apply N1. symmetry. exact E.
    + apply GetAbpProvisioningInfo_invalid. left. cbn.
      intros E. apply N1. symmetry. exact E.
  - intros d3. subst d3. unfold wake, NetTxComplete.
    rewrite setup_device. cbn [rtc].
    destruct (SLEEP_EN cfg); split; reflexivity.
Qed.

(** X16. The expired flag reaches one byte of the encoded buffer only: the
    encoder, run on the same buffer and readings with the flag set and with
    it clear, gives buffers that share all bytes before and all bytes after
    the bitmap byte, which is the first byte, or the fifth when the sensor
    id is sent. *)
Theorem expired_flag_one_byte :
  forall (cfg : BuildConfig) (r : Readings) (buffer : list byte),
    length buffer = PAYLOAD_SIZE ->
    exists pre post : list byte,
      length pre = (if SENSORID_EN cfg then 4 else 0)%nat
      /\ length post = (PAYLOAD_SIZE - length pre - 1)%nat
      /\ forall expired : bool,
           encodePayload cfg expired r buffer
           = pre
             ++ bytesBitmap false false false false expired
                            (MITHERMOMETER_EN cfg
                             && mi_valid (miThermometer_data0 r))
                            (data_ok (weatherSensor r))
                            (battery_ok (weatherSensor r))
                :: post.
Proof.
  intros cfg r buffer Hlen.
  set (pre := if SENSORID_EN cfg
              then quad_bytes (bytesUint32 (sensor_id (weatherSensor r)))
              else []).
  set (bitmap := fun expired : bool =>
         bytesBitmap false false false false expired
                     (MITHERMOMETER_EN cfg && mi_valid (miThermometer_data0 r))
                     (data_ok (weatherSensor r)) (battery_ok (weatherSensor r))).
  assert (Hpre : length pre = (if SENSORID_EN cfg then 4 else 0)%nat).
  { subst pre. destruct (SENSORID_EN cfg);
      [apply quad_bytes_length | reflexivity]. }
  assert (Hsplit : exists post, forall expired,
             encodePayload cfg expired r buffer
             = pre ++ bitmap expired :: post).
  { eexists. intros expired. rewrite encodePayload_spec by exact Hlen.
    unfold payload_bytes. cbv zeta. fold pre. fold (bitmap expired).
    rewrite <- app_assoc. cbn [app]. reflexivity. }
  destruct Hsplit as [post Hpost]. exists pre, post.
  split; [exact Hpre|]. split; [|exact Hpost].
  destruct (encodePayload_reserve cfg false r buffer Hlen) as [Hl _].
  rewrite (Hpost false), length_app in Hl. cbn [length] in Hl. lia.
Qed.

(** X17. A transmission completion delivered by [myLoRaWAN.loop()] ends the
    iteration of [loop()]: the callbacks after it, [mySensor.loop()] and the
    [FORCE_SLEEP] check do not run, so a deadline that has passed by then
    does not clear the markers and does not set the expired flag. *)
Theorem tx_complete_ends_loop :
  forall (cfg : BuildConfig) (cbs1 cbs2 : list Callback) (tNow : Z)
         (env : UplinkEnv) (now : Z) (d d1 : Device),
    SLEEP_EN cfg = true ->
    run cfg (map EvCallback cbs1) d = Some d1 ->
    asleep d1 = false ->
    loop cfg (cbs1 ++ CbNetTxComplete :: cbs2) tNow env now d
    = Some (NetTxComplete cfg d1)
    /\ rtc (NetTxComplete cfg d1) = rtc d1.
Proof.
  intros cfg cbs1 cbs2 tNow env now d d1 Hsleep Hrun Hawake.
  split.
  - unfold loop. rewrite map_app, <- app_assoc, run_app, Hrun.
    cbn [map app run]. unfold step at 1. rewrite Hawake.
    cbn [handle callback]. apply run_asleep.
    unfold NetTxComplete. rewrite Hsleep. reflexivity.
  - unfold NetTxComplete. rewrite Hsleep. reflexivity.
Qed.

Lemma doUplink_log (cfg : BuildConfig) (env : UplinkEnv) (d : Device) :
  exists l : list Effect,
    effects (doUplink cfg env d) = effects d ++ l
    /\ filter is_deep_sleep l = [] /\ filter is_shutdown l = [].
Proof.
  destruct (m_fBusy (mySensor d)) eqn:Eb.
  - rewrite doUplink_skip by (left; exact Eb).
    exists []. rewrite app_nil_r. repeat split.
  - destruct (LMIC_busy (LMIC_opmode env)) eqn:El.
    + rewrite doUplink_skip by (right; exact El).
      exists []. rewrite app_nil_r. repeat split.
    + rewrite doUplink_send by assumption. cbn [effects].
      eexists. split; [reflexivity|].
      destruct (SendBuffer_result env); split; reflexivity.
Qed.

(** The three ways an event bears on deep sleep. *)
Lemma step_sleep (cfg : BuildConfig) (ev : Event) (d d' : Device) :
  step cfg ev d = Some d' ->
  d' = d
  \/ (asleep d = false /\ asleep d' = false
      /\ exists l, effects d' = effects d ++ l
                   /\ filter is_deep_sleep l = []
                   /\ filter is_shutdown l = [])
  \/ (asleep d = false /\ asleep d' = true
      /\ effects d' = effects d ++ [FxShutdown; FxDeepSleep 360000000]).
Proof.
  unfold step. destruct (asleep d) eqn:Ea.
  - intros H. injection H as <-. left. reflexivity.
  - assert (Hquiet : forall d0, effects d0 = effects d -> asleep d0 = false ->
              d0 = d
              \/ (false = false /\ asleep d0 = false
                  /\ exists l, effects d0 = effects d ++ l
                               /\ filter is_deep_sleep l = []
                               /\ filter is_shutdown l = [])
              \/ (false = false /\ asleep d0 = true
                  /\ effects d0
                     = effects d ++ [FxShutdown; FxDeepSleep 360000000])).
    { intros d0 He Ha0. right. left. split; [reflexivity|].
      split; [exact Ha0|]. exists []. rewrite app_nil_r.
      split; [exact He | split; reflexivity]. }
    assert (Hpower : forall d0,
              effects d0 = effects d ++ [FxShutdown; FxDeepSleep 360000000] ->
              asleep d0 = true ->
              d0 = d
              \/ (false = false /\ asleep d0 = false
                  /\ exists l, effects d0 = effects d ++ l
                               /\ filter is_deep_sleep l = []
                               /\ filter is_shutdown l = [])
              \/ (false = false /\ asleep d0 = true
                  /\ effects d0
                     = effects d ++ [FxShutdown; FxDeepSleep 360000000])).
    { intros d0 He Ha0. right. right. repeat split; assumption. }
    destruct ev as [cb|tNow env|now]; cbn [handle].
    + intros H. injection H as <-. destruct cb; cbn [callback].
      * apply Hquiet; [reflexivity | exact Ea].
      * unfold NetTxComplete. destruct (SLEEP_EN cfg).
        -- apply Hpower; [|reflexivity].
           cbn. rewrite <- app_assoc. reflexivity.
        -- left. reflexivity.
      * apply Hquiet; [reflexivity | exact Ea].
      * apply Hquiet; [reflexivity | exact Ea].
      * right. left. split; [reflexivity|]. split; [exact Ea|].
        exists [FxBusy false]. repeat split.
    + unfold cSensor_loop.
      destruct (loop_schedule tNow (mySensor d)) as [s|]; [|discriminate].
      destruct (m_fUplinkRequest s); intros H; injection H as <-.
      * right. left. split; [reflexivity|].
        match goal with
        | |- asleep (doUplink _ _ ?d1) = _ /\ _ =>
            destruct (doUplink_frame cfg env d1) as (_ & _ & Ha1);
            destruct (doUplink_log cfg env d1) as (l & Hl & Hf & Hs)
        end.
        split; [rewrite Ha1; exact Ea|].
        exists l. split; [exact Hl | split; [exact Hf | exact Hs]].
      * apply Hquiet; [reflexivity | exact Ea].
    + intros H. injection H as <-. unfold loop_force_sleep.
      destruct (FORCE_SLEEP cfg && (now >? sleepTimeout d)).
      * apply Hpower; [|reflexivity].
        cbn. rewrite <- app_assoc. reflexivity.
      * left. reflexivity.
Qed.

(** X18. A wake cycle shuts down and enters deep sleep at most once, and
    nothing comes after it: on a device reachable from [setup()] the log
    holds no [Shutdown()] and no [ESP.deepSleep] while the device is awake,
    and once it is asleep the log ends with the one [Shutdown()] and
    [ESP.deepSleep] of 360 s; no [SendBuffer] follows. *)
Theorem sleep_once :
  forall (cfg : BuildConfig) (d : Device),
    reachable cfg d ->
    length (filter is_deep_sleep (effects d))
    = (if asleep d then 1 else 0)%nat
    /\ (asleep d = true ->
        exists l : list Effect,
          effects d = l ++ [FxShutdown; FxDeepSleep 360000000]
          /\ filter is_deep_sleep l = [])
    /\ length (filter is_shutdown (effects d))
       = (if asleep d then 1 else 0)%nat
    /\ (asleep d = true ->
        exists l : list Effect,
          effects d = l ++ [FxShutdown; FxDeepSleep 360000000]
          /\ filter is_deep_sleep l = [] /\ filter is_shutdown l = []).
Proof.
  intros cfg d (m & millis & evs & Hrun).
  set (I := fun d0 : Device =>
              (asleep d0 = false ->
               filter is_deep_sleep (effects d0) = []
               /\ filter is_shutdown (effects d0) = [])
              /\ (asleep d0 = true ->
                  exists l : list Effect,
                    effects d0 = l ++ [FxShutdown; FxDeepSleep 360000000]
                    /\ filter is_deep_sleep l = []
                    /\ filter is_shutdown l = [])).
  assert (HI : I d).
  { apply (run_invariant cfg I) with (evs := evs)
      (d := stores (setup millis (boot m))); [| |exact Hrun].
    - intros ev d0 d1 [Hawake Hslept] Hstep.
      destruct (step_sleep cfg ev d0 d1 Hstep)
        as [->|[(Ha0 & Ha1 & l & Hl & Hf & Hs)|(Ha0 & Ha1 & Hl)]].
      + split; assumption.
      + split.
        * intros _. destruct (Hawake Ha0) as [Hd Hsd].
          rewrite Hl, !filter_app, Hd, Hsd, Hf, Hs. split; reflexivity.
        * intros H. rewrite Ha1 in H. discriminate H.
      + split.
        * intros H. rewrite Ha1 in H. discriminate H.
        * intros _. exists (effects d0). split; [exact Hl | exact (Hawake Ha0)].
    - split; [split; reflexivity | discriminate]. }
  destruct HI as [Hawake Hslept].
  destruct (asleep d) eqn:Ea.
  - destruct (Hslept eq_refl) as (l & Hl & Hf & Hs).
    split; [|split; [|split]].
    + rewrite Hl, filter_app, Hf. reflexivity.
    + intros _. exists l. split; assumption.
    + rewrite Hl, filter_app, Hs. reflexivity.
    + intros _. exists l. split; [exact Hl | split; assumption].
  - destruct (Hawake eq_refl) as [Hd Hsd].
    split; [rewrite Hd; reflexivity|]. split; [discriminate|].
    split; [rewrite Hsd; reflexivity | discriminate].
Qed.

(** X19. [NetJoin] replaces the deadline, it does not only shorten it:
    without overflow of the tick count, the deadline becomes
    [now] + 600 s, which is later than the deadline before whenever less
    than 600 s were left of it, and not later otherwise; of two [NetJoin]
    calls the last one decides. *)
Theorem NetJoin_replaces_deadline :
  forall (now now' : Z) (d : Device),
    0 < OSTICKS_PER_SEC ->
    600 * OSTICKS_PER_SEC < 2 ^ 31 ->
    - 2 ^ 31 <= now ->
    now + 600 * OSTICKS_PER_SEC < 2 ^ 31 ->
    sleepTimeout (NetJoin now d) = now + 600 * OSTICKS_PER_SEC
    /\ (sleepTimeout d - 600 * OSTICKS_PER_SEC < now ->
        sleepTimeout d < sleepTimeout (NetJoin now d))
    /\ (now <= sleepTimeout d - 600 * OSTICKS_PER_SEC ->
        sleepTimeout (NetJoin now d) <= sleepTimeout d)
    /\ sleepTimeout (NetJoin now' (NetJoin now d))
       = sleepTimeout (NetJoin now' d).
Proof.
  intros now now' d Hpos Hfit Hlo Hhi.
  assert (Hjoin : sec2osticks SLEEP_TIMEOUT_JOINED = 600 * OSTICKS_PER_SEC).
  { unfold sec2osticks, SLEEP_TIMEOUT_JOINED. apply s32_small. lia. }
  assert (Hd : sleepTimeout (NetJoin now d) = now + 600 * OSTICKS_PER_SEC).
  { unfold NetJoin. cbn [set_sleepTimeout sleepTimeout]. rewrite Hjoin.
    apply s32_small. lia. }
  split; [exact Hd|]. rewrite Hd.
  split; [intros; lia|]. split; [intros; lia|]. reflexivity.
Qed.

(** X20. An idle iteration of [loop()] is the identity: with no callback
    from the LMIC, no uplink requested, less than a period elapsed and the
    deadline not passed, the device, its RTC memory and its log are left as
    they were. *)
Theorem idle_loop :
  forall (cfg : BuildConfig) (tNow : Z) (env : UplinkEnv) (now : Z)
         (d : Device),
    m_fUplinkRequest (mySensor d) = false ->
    u32 (tNow - m_tReference (mySensor d)) < m_uplinkPeriodMs (mySensor d) ->
    now <= sleepTimeout d ->
    loop cfg [] tNow env now d = Some d.
Proof.
  intros cfg tNow env now d Hreq Hearly Hdeadline.
  unfold loop. cbn [map app run]. unfold step.
  destruct (asleep d) eqn:Ea.
  - rewrite Ea. reflexivity.
  - cbn [handle]. unfold cSensor_loop.
    rewrite loop_schedule_not_due by exact Hearly.
    rewrite Hreq, set_mySensor_same, Ea. cbn [handle].
    unfold loop_force_sleep.
    destruct (Z.gtb_spec now (sleepTimeout d)) as [Hgt|_]; [lia|].
    rewrite andb_false_r. reflexivity.
Qed.


End CycleProperties.

(** * The further properties on concrete inputs *)

Lemma save_info_overwrite_witness :
  Z.of_nat (length [x0a; x0b; x0c]) <= EXTRA_INFO_MEM_SIZE
  /\ (length [xff] <= length [x0a; x0b; x0c])%nat
  /\ firstn 2 (skipn 1 (rtcSavedExtraInfo
                          (NetSaveSessionInfo zero_info [xff] rtc_saved)))
     = [x0b; x0c].
Proof.
  assert (H1 : Z.of_nat (length [x0a; x0b; x0c]) <= EXTRA_INFO_MEM_SIZE)
    by (vm_compute; discriminate).
  assert (H2 : (length [xff] <= length [x0a; x0b; x0c])%nat)
    by (simpl; lia).
  split; [exact H1|]. split; [exact H2|].
  destruct (save_info_overwrite (NetSaveSessionState demo_state rtc_power_on)
              demo_info zero_info [x0a; x0b; x0c] [xff] H1 H2)
    as (_ & _ & _ & H & _).
  exact H.
Defined.

Lemma extra_info_array_size_witness :
  Z.of_nat (length (rtcSavedExtraInfo rtc_saved)) = EXTRA_INFO_MEM_SIZE
  /\ length (rtcSavedExtraInfo
               (NetSaveSessionInfo zero_info (repeat xff 64) rtc_saved))
     = 64%nat.
Proof.
  split; [reflexivity|].
  exact (extra_info_array_size rtc_saved zero_info (repeat xff 64) eq_refl).
Defined.

Lemma GetOtaaProvisioningInfo_fills_witness :
  (length (repeat xff 8) <= length (deveui default_secrets))%nat
  /\ GetOtaaProvisioningInfo default_secrets
       (mkOtaaProvisioningInfo (repeat xff 16) (repeat xff 8) (repeat xff 8))
     = (true,
        mkOtaaProvisioningInfo (repeat x00 16) (repeat x00 8) (repeat x00 8)).
Proof.
  split; [simpl; lia|].
  destruct (GetOtaaProvisioningInfo_fills default_secrets
              (mkOtaaProvisioningInfo (repeat xff 16) (repeat xff 8)
                                      (repeat xff 8)))
    as [_ H]; try (simpl; lia).
  exact (H eq_refl eq_refl eq_refl).
Defined.

Lemma scheduler_no_burst_witness :
  let d' :=
    doUplink (sketch_config false) (env_idle true)
      (set_mySensor (mkSensor false false 360000 720500) demo_device) in
  0 < m_uplinkPeriodMs (mySensor demo_device)
  /\ m_uplinkPeriodMs (mySensor demo_device)
     <= u32 (900500 - m_tReference (mySensor demo_device))
  /\ cSensor_loop (sketch_config false) 900500 (env_idle true) demo_device
     = Some d'
  /\ u32 (900500 - m_tReference (mySensor d')) = 180000
  /\ cSensor_loop (sketch_config false) 900500 (env_idle true) d' = Some d'.
Proof.
  intros d'.
  assert (H1 : 0 < m_uplinkPeriodMs (mySensor demo_device)) by reflexivity.
  assert (H2 : m_uplinkPeriodMs (mySensor demo_device)
               <= u32 (900500 - m_tReference (mySensor demo_device)))
    by (vm_compute; discriminate).
  assert (H3 : cSensor_loop (sketch_config false) 900500 (env_idle true)
                 demo_device = Some d') by reflexivity.
  split; [exact H1|]. split; [exact H2|]. split; [exact H3|].
  destruct (scheduler_no_burst (P := esp32) (sketch_config false) 900500
              (env_idle true) demo_device d' H1 H2 H3) as (H & _ & _ & H').
  split; [exact H | exact H'].
Defined.

Lemma reachable_period_witness :
  reachable (P := esp32) (sketch_config false) demo_device
  /\ m_uplinkPeriodMs (mySensor demo_device) = 360000.
Proof.
  assert (Hreach : reachable (P := esp32) (sketch_config false) demo_device)
    by (exists rtc_saved, 500, []; reflexivity).
  split; [exact Hreach|].
  destruct (reachable_period (sketch_config false) demo_device Hreach)
    as [H _].
  exact H.
Defined.

Lemma rtc_writers_witness :
  step (P := esp32) (sketch_config false) (EvCallback (CbNetJoin 125000))
       demo_device
  = Some (NetJoin (P := esp32) 125000 demo_device)
  /\ rtc (NetJoin (P := esp32) 125000 demo_device) = rtc demo_device.
Proof.
  assert (Hstep : step (P := esp32) (sketch_config false)
                    (EvCallback (CbNetJoin 125000)) demo_device
                  = Some (NetJoin (P := esp32) 125000 demo_device))
    by reflexivity.
  split; [exact Hstep|].
  destruct (rtc_writers (sketch_config false) _ _ _ Hstep) as [H _].
  exact (H eq_refl).
Defined.

(** The cycle after a deadline shutdown: the bitmap byte of the frame is
    0x0f, the expired bit above the three sensor bits. *)
Lemma runtimeExpired_sticky_witness :
  let d :=
    wake (P := esp32) 0
         (loop_force_sleep (sketch_config false) 112500001 demo_device) in
  reachable (P := esp32) (sketch_config false) d
  /\ runtimeExpired (rtc d) = true
  /\ firstn 1 (loraData (doUplink (sketch_config false) (env_idle true) d))
     = [x0f].
Proof.
  intros d.
  assert (Hreach : reachable (P := esp32) (sketch_config false) d).
  { exists (rtc (loop_force_sleep (sketch_config false) 112500001 demo_device)),
      0, []. reflexivity. }
  split; [exact Hreach|]. split; [reflexivity|].
  destruct (runtimeExpired_sticky (sketch_config false) [] d d Hreach
              eq_refl eq_refl) as (_ & _ & H).
  rewrite (H (env_idle true) eq_refl eq_refl). reflexivity.
Defined.

Lemma tx_complete_ends_loop_witness :
  SLEEP_EN (sketch_config false) = true
  /\ loop (P := esp32) (sketch_config false)
          ([CbNetJoin 125000] ++ CbNetTxComplete :: [CbNetJoin 130000])
          1000 (env_idle true) 999999999 demo_device
     = Some (NetTxComplete (sketch_config false)
               (NetJoin (P := esp32) 125000 demo_device)).
Proof.
  split; [reflexivity|].
  destruct (tx_complete_ends_loop (P := esp32) (sketch_config false)
              [CbNetJoin 125000] [CbNetJoin 130000] 1000 (env_idle true)
              999999999 demo_device
              (NetJoin (P := esp32) 125000 demo_device)
              eq_refl eq_refl eq_refl) as [H _].
  exact H.
Defined.

Lemma sleep_once_witness :
  reachable (P := esp32) (sketch_config false)
            (NetTxComplete (sketch_config false) demo_device)
  /\ length (filter is_deep_sleep
               (effects (NetTxComplete (sketch_config false) demo_device)))
     = 1%nat.
Proof.
  assert (Hreach : reachable (P := esp32) (sketch_config false)
                     (NetTxComplete (sketch_config false) demo_device))
    by (exists rtc_saved, 500, [EvCallback CbNetTxComplete]; reflexivity).
  split; [exact Hreach|].
  destruct (sleep_once (sketch_config false) _ Hreach) as [H _].
  exact H.
Defined.

Lemma NetJoin_replaces_deadline_witness :
  0 < OSTICKS_PER_SEC (Platform := esp32)
  /\ 125000 + 600 * OSTICKS_PER_SEC (Platform := esp32) < 2 ^ 31
  /\ sleepTimeout (NetJoin (P := esp32) 125000 demo_device) = 37625000.
Proof.
  split; [reflexivity|]. split; [reflexivity|].
  assert (Hlo : - 2 ^ 31 <= 125000) by (vm_compute; discriminate).
  destruct (NetJoin_replaces_deadline (P := esp32) 125000 0 demo_device
              eq_refl eq_refl Hlo eq_refl) as [H _].
  exact H.
Defined.

Lemma idle_loop_witness :
  let d := NetJoin (P := esp32) 125000
             (doUplink (sketch_config false) (env_idle true) demo_device) in
  u32 (1000 - m_tReference (mySensor demo_device))
  < m_uplinkPeriodMs (mySensor demo_device)
  /\ loop (P := esp32) (sketch_config false) [] 1000 (env_idle true) 130000
          (set_mySensor (mkSensor false true 360000 500) d)
     = Some (set_mySensor (mkSensor false true 360000 500) d).
Proof.
  intros d. split; [reflexivity|].
  apply (idle_loop (P := esp32)).
  - reflexivity.
  - reflexivity.
  - vm_compute. discriminate.
Defined.


Lemma expired_flag_one_byte_witness :
  length (repeat x00 PAYLOAD_SIZE) = PAYLOAD_SIZE
  /\ exists pre post : list byte,
       length pre = 0%nat
       /\ length post = 35%nat
       /\ encodePayload (P := esp32) (sketch_config false) true demo_readings
                        (repeat x00 PAYLOAD_SIZE)
          = pre ++ x0f :: post
       /\ encodePayload (P := esp32) (sketch_config false) false demo_readings
                        (repeat x00 PAYLOAD_SIZE)
          = pre ++ x07 :: post.
Proof.
  split; [reflexivity|].
  destruct (expired_flag_one_byte (P := esp32) (sketch_config false)
              demo_readings (repeat x00 PAYLOAD_SIZE) eq_refl)
    as (pre & post & Hpre & Hlen & H).
  exists pre, post. split; [exact Hpre|].
  split; [rewrite Hlen, Hpre; reflexivity|].
  split; [exact (H true) | exact (H false)].
Defined.

